(** * grudge.array_context: array contexts, distributed compilation, class selection

    A shallow embedding of [grudge/array_context.py].

    Python objects are attribute dictionaries living in a heap; values are
    dynamically typed; a call either returns or raises, and the warnings,
    the log and the calls made into the external libraries (meshmode,
    arraycontext, pytato) are recorded in the state that every call threads.
    The external libraries themselves are a parameter of the development
    (class [Externals]). *)

From Stdlib Require Import ZArith.
From stdpp Require Import base option list gmap strings.

Open Scope Z_scope.
Open Scope string_scope.
Open Scope list_scope.

(** ** Values, exceptions, results *)

(** A Python value, as far as this module looks into one: [None], a bool, an
    int, or a reference to an object owned by an external library (a command
    queue, an allocator, a communicator, an array, a program, ...).
    References are compared by identity. *)
Inductive Value :=
| VNone
| VBool (b : bool)
| VInt (z : Z)
| VRef (r : positive).

#[global] Instance Value_eq_dec : EqDecision Value.
Proof. solve_decision. Defined.

(** [x is None] *)
Definition is_None (v : Value) : bool :=
  match v with VNone => true | _ => false end.

(** [x == y] on the values above: bools are ints in Python ([True == 1]),
    references use the default identity comparison. *)
Definition py_eq (x y : Value) : bool :=
  match x, y with
  | VNone, VNone => true
  | VBool a, VBool b => Bool.eqb a b
  | VInt a, VInt b => Z.eqb a b
  | VBool a, VInt b => Z.eqb (Z.b2z a) b
  | VInt a, VBool b => Z.eqb a (Z.b2z b)
  | VRef a, VRef b => Pos.eqb a b
  | _, _ => false
  end.

Inductive Exn :=
| AssertionError
| KeyError
| AttributeError
| TypeError
| UnboundLocalError
| ExternalError (code : positive).

Inductive Result (A : Type) :=
| Ok (a : A)
| Raise (e : Exn).
Arguments Ok {A} a.
Arguments Raise {A} e.

Definition is_Ok {A} (r : Result A) : bool :=
  match r with Ok _ => true | Raise _ => false end.

(** The outcome of a routine of an external library: it returns, or it
    raises an exception of its own, which this module never catches. *)
Inductive ExtResult (A : Type) :=
| Returns (a : A)
| Raises (code : positive).
Arguments Returns {A} a.
Arguments Raises {A} code.

(** ** Classes *)

(** The classes of the module, and the three meshmode classes it builds on.
    [MPIBasedArrayContext] and [MPIPytatoArrayContextBase] are mix-ins. *)
Inductive Class :=
| Meshmode_PyOpenCLArrayContext
| Meshmode_PytatoPyOpenCLArrayContext
| SingleGridWorkBalancingPytatoArrayContext
| PyOpenCLArrayContext
| PytatoPyOpenCLArrayContext
| MPIBasedArrayContext
| MPIPytatoArrayContextBase
| MPIPyOpenCLArrayContext
| MPIBasePytatoPyOpenCLArrayContext
| MPISingleGridWorkBalancingPytatoArrayContext.

#[global] Instance Class_eq_dec : EqDecision Class.
Proof. solve_decision. Defined.

(** Does the class derive from [MPIBasedArrayContext]? (From the class
    statements of the module.) *)
Definition is_mpi_based (c : Class) : bool :=
  match c with
  | MPIBasedArrayContext | MPIPytatoArrayContextBase | MPIPyOpenCLArrayContext
  | MPIBasePytatoPyOpenCLArrayContext
  | MPISingleGridWorkBalancingPytatoArrayContext => true
  | _ => false
  end.

(** Does the class derive from a pytato (lazy) array context? *)
Definition is_lazy_class (c : Class) : bool :=
  match c with
  | Meshmode_PytatoPyOpenCLArrayContext
  | SingleGridWorkBalancingPytatoArrayContext
  | PytatoPyOpenCLArrayContext
  | MPIBasePytatoPyOpenCLArrayContext
  | MPISingleGridWorkBalancingPytatoArrayContext => true
  | _ => false
  end.

(** ** Objects and data of the external libraries *)

Record Obj := mkObj { cls : Class; attrs : gmap string Value }.

Definition loc := nat.

(** A key of an array container is an attribute name or an index; an input
    or output id is a tuple of keys. *)
Definition Key : Type := string + Z.
Definition Keys : Type := list Key.

Definition PartId := positive.

(** [pytato.DictOfNamedArrays]: names to arrays. *)
Abbreviation NamedArrays := (gmap string Value).

Record Part := mkPart { pid : PartId; output_names : list string }.

(** [pytato.distributed.DistributedGraphPartition], the fields this module
    reads. [parts] is a dict, kept in insertion order. *)
Record DistributedGraphPartition := mkPartition {
  parts : list (PartId * Part);
  var_name_to_result : gmap string Value
}.

(** An array container: an array (leaf), or a container of keyed
    sub-containers. *)
#[warnings="-register-all"]
Inductive ArrayContainer :=
| Leaf (a : Value)
| Container (items : list (Key * ArrayContainer)).

(** [_DistributedLazilyCompilingFunctionCaller(actx, f)]: the two fields the
    base class [LazilyCompilingFunctionCaller] stores. *)
Record Caller := mkCaller { caller_actx : loc; caller_f : Value }.

(** The frozen dataclass [_DistributedCompiledFunction]. *)
Record DistributedCompiledFunction := mkCompiled {
  actx : loc;
  distributed_partition : DistributedGraphPartition;
  part_id_to_prg : gmap PartId Value;
  input_id_to_name_in_program : gmap Keys string;
  output_id_to_name_in_program : gmap Keys string;
  output_template : ArrayContainer
}.

(** ** The state threaded through every call *)

(** A call into an external library, with the arguments it was given. *)
Inductive Call :=
| call_base_init (c : Class) (self : loc) (args : list Value)
| call_deduplicate_data_wrappers (d : NamedArrays)
| call_find_distributed_partition (d : NamedArrays)
| call_number_distributed_tags
    (comm : Value) (p : DistributedGraphPartition) (base_tag : Value)
| call_dag_to_transformed_loopy_prg (self : Caller) (d : NamedArrays)
| call_args_to_cl_buffers
    (actx : loc) (names : gmap Keys string) (args : gmap Keys Value)
| call_execute_distributed_partition
    (p : DistributedGraphPartition) (prgs : gmap PartId Value)
    (queue comm allocator : Value) (input_args : gmap string Value)
| call_thaw (actx : loc) (a : Value).

(** One [logger.info] record of [get_reasonable_array_context_class]. *)
Record LogRecord := mkLog {
  log_class : Class;
  log_lazy : bool;
  log_distributed : bool;
  log_device_parallel : bool
}.

Record World (Ext : Type) := mkWorld {
  heap : list Obj;
  warnings : list string;
  logged : list LogRecord;
  trace : list Call;
  ext : Ext
}.
Arguments mkWorld {Ext}.
Arguments heap {Ext}.
Arguments warnings {Ext}.
Arguments logged {Ext}.
Arguments trace {Ext}.
Arguments ext {Ext}.

(** The external libraries. Each routine gets the values the Python call
    passes, acts on the external state (device memory, MPI traffic) and
    returns or raises an exception of its own. None of them can assign to
    an attribute of an existing array context: a base-class constructor
    gets the attribute dictionary of the object under construction and
    returns the dictionary it leaves behind; the routines that are passed
    an array context (or a caller, which holds one) get the object as it
    is at the call. Tags, like every value here, are [None], bools, ints
    or references; floating point numbers are not modelled. *)
Class Externals (Ext : Type) := {
  base_init :
    Class -> list Value -> gmap string Value ->
    Ext -> ExtResult (gmap string Value) * Ext;
  deduplicate_data_wrappers :
    NamedArrays -> Ext -> ExtResult NamedArrays * Ext;
  find_distributed_partition :
    NamedArrays -> Ext -> ExtResult DistributedGraphPartition * Ext;
  number_distributed_tags :
    Value -> DistributedGraphPartition -> Value ->
    Ext -> ExtResult (DistributedGraphPartition * Value) * Ext;
  dag_to_transformed_loopy_prg :
    Caller -> option Obj -> NamedArrays ->
    Ext -> ExtResult (Value * Value * Value) * Ext;
  args_to_cl_buffers :
    option Obj -> gmap Keys string -> gmap Keys Value ->
    Ext -> ExtResult (gmap string Value) * Ext;
  execute_distributed_partition :
    DistributedGraphPartition -> gmap PartId Value ->
    Value -> Value -> Value -> gmap string Value ->
    Ext -> ExtResult (gmap string Value) * Ext;
  thaw : option Obj -> Value -> Ext -> ExtResult Value * Ext
}.

(** ** Warning texts *)

Definition msg_no_allocator : string :=
  "No memory allocator specified, please pass one. (Preferably a pyopencl.tools.MemoryPool in order to reduce device allocations)".

Definition msg_branch_mismatch : string :=
  "Your loopy and meshmode branches are mismatched. Please make sure that you have the https://github.com/kaushikcfd/loopy/tree/pytato-array-context-transforms branch of loopy.".

Definition msg_no_device_parallel : string :=
  "No device-parallel actx available, execution will be slow. Please make sure you have the right branches for loopy (https://github.com/kaushikcfd/loopy/tree/pytato-array-context-transforms) and meshmode (https://github.com/kaushikcfd/meshmode/tree/pytato-array-context-transforms).".

(** ** The monad of Python calls *)

Section Monad.
Context {Ext : Type}.

Definition M (A : Type) : Type := World Ext -> Result A * World Ext.

Definition ret {A} (a : A) : M A := fun w => (Ok a, w).

Definition bind {A B} (c : M A) (k : A -> M B) : M B :=
  fun w =>
    match c w with
    | (Ok a, w') => k a w'
    | (Raise e, w') => (Raise e, w')
    end.

Definition raise {A} (e : Exn) : M A := fun w => (Raise e, w).

(** [warnings.warn(msg)] under the default filter: the warning is
    issued and execution goes on. *)
Definition warn (msg : string) : M unit :=
  fun w => (Ok tt, mkWorld (heap w) (warnings w ++ [msg]) (logged w)
                           (trace w) (ext w)).

Definition logger_info (r : LogRecord) : M unit :=
  fun w => (Ok tt, mkWorld (heap w) (warnings w) (logged w ++ [r])
                           (trace w) (ext w)).

(** [assert b] *)
Definition py_assert (b : bool) : M unit :=
  if b then ret tt else raise AssertionError.

(** [d[k]] on a dict *)
Definition getitem {K} `{Countable K} {V} (d : gmap K V) (k : K) : M V :=
  match d !! k with
  | Some v => ret v
  | None => raise KeyError
  end.

(** The object a reference points to, as it is now. *)
Definition deref (l : loc) : M (option Obj) :=
  fun w => (Ok (heap w !! l), w).

(** [type(o)] *)
Definition type_of (l : loc) : M Class :=
  fun w =>
    match heap w !! l with
    | Some o => (Ok (cls o), w)
    | None => (Raise TypeError, w)
    end.

(** [o.name] *)
Definition getattr (l : loc) (name : string) : M Value :=
  fun w =>
    match heap w !! l with
    | Some o =>
        match attrs o !! name with
        | Some v => (Ok v, w)
        | None => (Raise AttributeError, w)
        end
    | None => (Raise AttributeError, w)
    end.

Definition set_heap (h : list Obj) : M unit :=
  fun w => (Ok tt, mkWorld h (warnings w) (logged w) (trace w) (ext w)).

(** [o.name = v] *)
Definition setattr (l : loc) (name : string) (v : Value) : M unit :=
  fun w =>
    match heap w !! l with
    | Some o =>
        set_heap (<[l := mkObj (cls o) (<[name := v]> (attrs o))]> (heap w)) w
    | None => (Raise AttributeError, w)
    end.

(** [cls.__new__(cls)]: a fresh object without attributes. *)
Definition alloc (c : Class) : M loc :=
  fun w =>
    (Ok (length (heap w)),
     mkWorld (heap w ++ [mkObj c ∅]) (warnings w) (logged w) (trace w) (ext w)).

(** A call into an external library: noted in the trace, then run on the
    external state. *)
Definition external {A} (c : Call) (f : Ext -> ExtResult A * Ext) : M A :=
  fun w =>
    let w' := mkWorld (heap w) (warnings w) (logged w) (trace w ++ [c])
                (f (ext w)).2 in
    match (f (ext w)).1 with
    | Returns a => (Ok a, w')
    | Raises code => (Raise (ExternalError code), w')
    end.

End Monad.

Declare Scope py_scope.
Delimit Scope py_scope with py.
Notation "x <- c ;; k" := (bind c (fun x => k))
  (at level 100, c at next level, right associativity) : py_scope.
Notation "c ;;; k" := (bind c (fun _ => k))
  (at level 100, right associativity) : py_scope.
Open Scope py_scope.

(** ** Module import (lines 45-67) *)

(** What the two guarded imports find: whether meshmode offers
    [SingleGridWorkBalancingPytatoArrayContext], and whether loopy offers
    [loopy.codegen.result.get_idis_for_kernel]. *)
Record ImportEnv := mkEnv {
  meshmode_has_single_grid : bool;
  loopy_has_get_idis : bool
}.

(** A mismatched pair of branches: the meshmode class is there, the loopy
    function is not. *)
Definition branches_mismatched (env : ImportEnv) : bool :=
  meshmode_has_single_grid env && negb (loopy_has_get_idis env).

(** The [try]/[except ImportError] block run when the module is imported;
    the result is [_HAVE_SINGLE_GRID_WORK_BALANCING]. *)
Definition import_module {Ext} (env : ImportEnv) : M (Ext:=Ext) bool :=
  if meshmode_has_single_grid env then
    if loopy_has_get_idis env then
      ret true
    else
      (warn msg_branch_mismatch ;;;
       ret false)
  else
    ret false.

(** ** Method resolution *)

(** The linearisation of each class, as far as the classes known here go
    (the tail into arraycontext and [object] is left out). *)
Definition mro (c : Class) : list Class :=
  match c with
  | Meshmode_PyOpenCLArrayContext => [Meshmode_PyOpenCLArrayContext]
  | Meshmode_PytatoPyOpenCLArrayContext => [Meshmode_PytatoPyOpenCLArrayContext]
  | SingleGridWorkBalancingPytatoArrayContext =>
      [SingleGridWorkBalancingPytatoArrayContext]
  | PyOpenCLArrayContext =>
      [PyOpenCLArrayContext; Meshmode_PyOpenCLArrayContext]
  | PytatoPyOpenCLArrayContext =>
      [PytatoPyOpenCLArrayContext; Meshmode_PytatoPyOpenCLArrayContext]
  | MPIBasedArrayContext => [MPIBasedArrayContext]
  | MPIPytatoArrayContextBase =>
      [MPIPytatoArrayContextBase; MPIBasedArrayContext]
  | MPIPyOpenCLArrayContext =>
      [MPIPyOpenCLArrayContext; PyOpenCLArrayContext;
       Meshmode_PyOpenCLArrayContext; MPIBasedArrayContext]
  | MPIBasePytatoPyOpenCLArrayContext =>
      [MPIBasePytatoPyOpenCLArrayContext; MPIPytatoArrayContextBase;
       MPIBasedArrayContext; PytatoPyOpenCLArrayContext;
       Meshmode_PytatoPyOpenCLArrayContext]
  | MPISingleGridWorkBalancingPytatoArrayContext =>
      [MPISingleGridWorkBalancingPytatoArrayContext; MPIPytatoArrayContextBase;
       MPIBasedArrayContext; SingleGridWorkBalancingPytatoArrayContext]
  end.

(** The classes whose body has a [def __init__]. *)
Definition defines_init (c : Class) : bool :=
  match c with
  | MPIBasedArrayContext
  | MPIBasePytatoPyOpenCLArrayContext
  | MPISingleGridWorkBalancingPytatoArrayContext => false
  | _ => true
  end.

Fixpoint after (cur : Class) (l : list Class) : list Class :=
  match l with
  | [] => []
  | c :: l' => if decide (c = cur) then l' else after cur l'
  end.

Fixpoint first_init (l : list Class) : option Class :=
  match l with
  | [] => None
  | c :: l' => if defines_init c then Some c else first_init l'
  end.

(** The class whose [__init__] runs for [dyn(...)]. *)
Definition init_class (dyn : Class) : option Class := first_init (mro dyn).

(** The class whose [__init__] the call [super().__init__] inside class
    [cur] reaches, for an object of class [dyn]; [None] stands for
    [object]. *)
Definition super_init_class (dyn cur : Class) : option Class :=
  first_init (after cur (mro dyn)).

(** ** The classes and functions of the module *)

Section Grudge.
Context {Ext : Type} `{!Externals Ext}.

(** The module global set at import. *)
Variable _HAVE_SINGLE_GRID_WORK_BALANCING : bool.

Abbreviation M := (M (Ext:=Ext)).

(** The constructor of a meshmode class, run on [self]. *)
Definition meshmode_init (c : Class) (self : loc) (args : list Value)
  : M unit :=
  fun w =>
    match heap w !! self with
    | Some o =>
        (d <- external (call_base_init c self args) (base_init c args (attrs o)) ;;
         set_heap (<[self := mkObj (cls o) d]> (heap w))) w
    | None => (Raise TypeError, w)
    end.

(** [super().__init__(...)] where the next [__init__] is a meshmode
    one; [object.__init__] takes no arguments. *)
Definition super_init_meshmode (cur : Class) (self : loc) (args : list Value)
  : M unit :=
  dyn <- type_of self ;;
  match super_init_class dyn cur with
  | Some Meshmode_PyOpenCLArrayContext =>
      meshmode_init Meshmode_PyOpenCLArrayContext self args
  | Some Meshmode_PytatoPyOpenCLArrayContext =>
      meshmode_init Meshmode_PytatoPyOpenCLArrayContext self args
  | Some SingleGridWorkBalancingPytatoArrayContext =>
      meshmode_init SingleGridWorkBalancingPytatoArrayContext self args
  | _ => raise TypeError
  end.

(** [PyOpenCLArrayContext.__init__] (lines 91-103). An omitted argument
    is [None] here and takes the default of the signature. *)
Definition PyOpenCLArrayContext_init (self : loc) (queue : Value)
    (allocator wait_event_queue_length force_device_scalars : option Value)
  : M unit :=
  let allocator := default VNone allocator in
  let wait_event_queue_length := default VNone wait_event_queue_length in
  let force_device_scalars := default (VBool false) force_device_scalars in
  (if is_None allocator then warn msg_no_allocator else ret tt) ;;;
  super_init_meshmode PyOpenCLArrayContext self
    [queue; allocator; wait_event_queue_length; force_device_scalars].

(** [PytatoPyOpenCLArrayContext.__init__] (lines 115-121). *)
Definition PytatoPyOpenCLArrayContext_init (self : loc) (queue : Value)
    (allocator : option Value) : M unit :=
  let allocator := default VNone allocator in
  (if is_None allocator then warn msg_no_allocator else ret tt) ;;;
  super_init_meshmode PytatoPyOpenCLArrayContext self [queue; allocator].

(** [MPIPytatoArrayContextBase.__init__] (lines 245-257). Its
    [super().__init__(queue, allocator)] reaches
    [PytatoPyOpenCLArrayContext.__init__] or a meshmode constructor,
    by the class of [self]. *)
Definition MPIPytatoArrayContextBase_init (self : loc)
    (mpi_communicator queue mpi_base_tag : Value) (allocator : option Value)
  : M unit :=
  let allocator := default VNone allocator in
  (if is_None allocator then warn msg_no_allocator else ret tt) ;;;
  dyn <- type_of self ;;
  match super_init_class dyn MPIPytatoArrayContextBase with
  | Some PytatoPyOpenCLArrayContext =>
      PytatoPyOpenCLArrayContext_init self queue (Some allocator)
  | _ => super_init_meshmode MPIPytatoArrayContextBase self [queue; allocator]
  end ;;;
  setattr self "mpi_communicator" mpi_communicator ;;;
  setattr self "mpi_base_tag" mpi_base_tag.

(** [MPIPyOpenCLArrayContext.__init__] (lines 283-297). Its
    [super().__init__(queue, allocator=..., ...)] reaches
    [PyOpenCLArrayContext.__init__] of this module. *)
Definition MPIPyOpenCLArrayContext_init (self : loc)
    (mpi_communicator queue : Value)
    (allocator wait_event_queue_length force_device_scalars : option Value)
  : M unit :=
  let allocator := default VNone allocator in
  let wait_event_queue_length := default VNone wait_event_queue_length in
  let force_device_scalars := default (VBool false) force_device_scalars in
  dyn <- type_of self ;;
  match super_init_class dyn MPIPyOpenCLArrayContext with
  | Some PyOpenCLArrayContext =>
      PyOpenCLArrayContext_init self queue (Some allocator)
        (Some wait_event_queue_length) (Some force_device_scalars)
  | _ => raise TypeError
  end ;;;
  setattr self "mpi_communicator" mpi_communicator.

(** The arguments of a constructor call, by signature. *)
Inductive CtorArgs :=
| args_pyopencl (queue : Value)
    (allocator wait_event_queue_length force_device_scalars : option Value)
| args_pytato (queue : Value) (allocator : option Value)
| args_mpi_pytato (mpi_communicator queue mpi_base_tag : Value)
    (allocator : option Value)
| args_mpi_pyopencl (mpi_communicator queue : Value)
    (allocator wait_event_queue_length force_device_scalars : option Value).

(** [c(...)]: a fresh object of class [c], initialised by the first
    [__init__] of its linearisation, for the classes this module
    defines. Arguments that do not fit the signature are a [TypeError]. *)
Definition instantiate (c : Class) (a : CtorArgs) : M loc :=
  self <- alloc c ;;
  match init_class c, a with
  | Some PyOpenCLArrayContext, args_pyopencl q al w f =>
      PyOpenCLArrayContext_init self q al w f
  | Some PytatoPyOpenCLArrayContext, args_pytato q al =>
      PytatoPyOpenCLArrayContext_init self q al
  | Some MPIPytatoArrayContextBase, args_mpi_pytato comm q tag al =>
      MPIPytatoArrayContextBase_init self comm q tag al
  | Some MPIPyOpenCLArrayContext, args_mpi_pyopencl comm q al w f =>
      MPIPyOpenCLArrayContext_init self comm q al w f
  | _, _ => raise TypeError
  end ;;;
  ret self.

(** *** Distributed compilation *)

(** The dict comprehension
    [{var_name: var_name_to_result[var_name] for var_name in output_names}]. *)
Fixpoint named_results (var_name_to_result : gmap string Value)
    (names : list string) (acc : NamedArrays) : M NamedArrays :=
  match names with
  | [] => ret acc
  | var_name :: rest =>
      v <- getitem var_name_to_result var_name ;;
      named_results var_name_to_result rest (<[var_name := v]> acc)
  end.

(** The loop over [distributed_partition.parts.values()] (lines 165-170). *)
Fixpoint compile_parts (self : Caller) (dp : DistributedGraphPartition)
    (ps : list (PartId * Part)) (part_id_to_prg : gmap PartId Value)
  : M (gmap PartId Value) :=
  match ps with
  | [] => ret part_id_to_prg
  | (_, part) :: rest =>
      d <- named_results (var_name_to_result dp) (output_names part) ∅ ;;
      o <- deref (caller_actx self) ;;
      r <- external (call_dag_to_transformed_loopy_prg self d)
             (dag_to_transformed_loopy_prg self o d) ;;
      compile_parts self dp rest (<[pid part := r.1.1]> part_id_to_prg)
  end.

(** [_DistributedLazilyCompilingFunctionCaller._dag_to_compiled_func]
    (lines 133-178). *)
Definition _dag_to_compiled_func (self : Caller)
    (dict_of_named_arrays : NamedArrays)
    (input_id_to_name_in_program output_id_to_name_in_program : gmap Keys string)
    (output_template : ArrayContainer) : M DistributedCompiledFunction :=
  dict_of_named_arrays <-
    external (call_deduplicate_data_wrappers dict_of_named_arrays)
      (deduplicate_data_wrappers dict_of_named_arrays) ;;
  distributed_partition <-
    external (call_find_distributed_partition dict_of_named_arrays)
      (find_distributed_partition dict_of_named_arrays) ;;
  prev_mpi_base_tag <- getattr (caller_actx self) "mpi_base_tag" ;;
  comm <- getattr (caller_actx self) "mpi_communicator" ;;
  numbered <-
    external
      (call_number_distributed_tags comm distributed_partition prev_mpi_base_tag)
      (number_distributed_tags comm distributed_partition prev_mpi_base_tag) ;;
  let distributed_partition := numbered.1 in
  let _new_mpi_base_tag := numbered.2 in
  cur <- getattr (caller_actx self) "mpi_base_tag" ;;
  py_assert (py_eq prev_mpi_base_tag cur) ;;;
  setattr (caller_actx self) "mpi_base_tag" _new_mpi_base_tag ;;;
  part_id_to_prg <-
    compile_parts self distributed_partition (parts distributed_partition) ∅ ;;
  ret (mkCompiled (caller_actx self) distributed_partition part_id_to_prg
         input_id_to_name_in_program output_id_to_name_in_program
         output_template).

(** [arraycontext.container.traversal.rec_keyed_map_array_container],
    a routine of the external library, after its documentation: [f] is
    applied to every leaf array together with the tuple of keys leading
    to it, and the results are put back into containers of the same
    kind under the same keys. *)
Fixpoint rec_keyed_map (f : Keys -> Value -> M Value) (keys : Keys)
    (ary : ArrayContainer) : M ArrayContainer :=
  match ary with
  | Leaf a => v <- f keys a ;; ret (Leaf v)
  | Container items =>
      items' <-
        (fix go (l : list (Key * ArrayContainer))
           : M (list (Key * ArrayContainer)) :=
           match l with
           | [] => ret []
           | (key, subary) :: rest =>
               r <- rec_keyed_map f (keys ++ [key]) subary ;;
               rs <- go rest ;;
               ret ((key, r) :: rs)
           end) items ;;
      ret (Container items')
  end.

Definition rec_keyed_map_array_container (f : Keys -> Value -> M Value)
    (ary : ArrayContainer) : M ArrayContainer :=
  rec_keyed_map f [] ary.

(** [_DistributedCompiledFunction.__call__] (lines 218-241). *)
Definition to_output_template (self : DistributedCompiledFunction)
    (out_dict : gmap string Value) (keys : Keys) (_ : Value) : M Value :=
  name <- getitem (output_id_to_name_in_program self) keys ;;
  a <- getitem out_dict name ;;
  o <- deref (actx self) ;;
  external (call_thaw (actx self) a) (thaw o a).

Definition DistributedCompiledFunction_call
    (self : DistributedCompiledFunction) (arg_id_to_arg : gmap Keys Value)
  : M ArrayContainer :=
  o <- deref (actx self) ;;
  input_args_for_prg <-
    external
      (call_args_to_cl_buffers (actx self) (input_id_to_name_in_program self)
         arg_id_to_arg)
      (args_to_cl_buffers o (input_id_to_name_in_program self) arg_id_to_arg) ;;
  queue <- getattr (actx self) "queue" ;;
  comm <- getattr (actx self) "mpi_communicator" ;;
  allocator <- getattr (actx self) "allocator" ;;
  out_dict <-
    external
      (call_execute_distributed_partition (distributed_partition self)
         (part_id_to_prg self) queue comm allocator input_args_for_prg)
      (execute_distributed_partition (distributed_partition self)
         (part_id_to_prg self) queue comm allocator input_args_for_prg) ;;
  rec_keyed_map_array_container (to_output_template self out_dict)
    (output_template self).

(** *** clone *)

(** [MPIPytatoArrayContextBase.clone] (lines 264-269). *)
Definition MPIPytatoArrayContextBase_clone (self : loc) : M loc :=
  dyn <- type_of self ;;
  mpi_communicator <- getattr self "mpi_communicator" ;;
  queue <- getattr self "queue" ;;
  mpi_base_tag <- getattr self "mpi_base_tag" ;;
  allocator <- getattr self "allocator" ;;
  instantiate dyn
    (args_mpi_pytato mpi_communicator queue mpi_base_tag (Some allocator)).

(** [MPIPyOpenCLArrayContext.clone] (lines 299-305). *)
Definition MPIPyOpenCLArrayContext_clone (self : loc) : M loc :=
  dyn <- type_of self ;;
  mpi_communicator <- getattr self "mpi_communicator" ;;
  queue <- getattr self "queue" ;;
  allocator <- getattr self "allocator" ;;
  wait_event_queue_length <- getattr self "_wait_event_queue_length" ;;
  force_device_scalars <- getattr self "_force_device_scalars" ;;
  instantiate dyn
    (args_mpi_pyopencl mpi_communicator queue (Some allocator)
       (Some wait_event_queue_length) (Some force_device_scalars)).

(** [o.clone()], by the class of [o]. *)
Definition clone (self : loc) : M loc :=
  dyn <- type_of self ;;
  match dyn with
  | MPIPyOpenCLArrayContext => MPIPyOpenCLArrayContext_clone self
  | MPIPytatoArrayContextBase
  | MPIBasePytatoPyOpenCLArrayContext
  | MPISingleGridWorkBalancingPytatoArrayContext =>
      MPIPytatoArrayContextBase_clone self
  | _ => raise AttributeError
  end.

(** *** Class selection *)

(** [get_reasonable_array_context_class] (lines 363-398). The local
    [actx_class] is assigned statement by statement, as in the source. *)
Definition get_reasonable_array_context_class (lazy distributed : bool)
  : M Class :=
  actx_class <-
    (if lazy then
       (if negb _HAVE_SINGLE_GRID_WORK_BALANCING
        then warn msg_no_device_parallel else ret tt) ;;;
       (* lazy, non-distributed *)
       let actx_class : option Class :=
         if negb distributed then
           if _HAVE_SINGLE_GRID_WORK_BALANCING
           then Some SingleGridWorkBalancingPytatoArrayContext
           else Some PytatoPyOpenCLArrayContext
         else None in
       (* distributed+lazy: *)
       let actx_class : option Class :=
         if _HAVE_SINGLE_GRID_WORK_BALANCING
         then Some MPISingleGridWorkBalancingPytatoArrayContext
         else Some MPIBasePytatoPyOpenCLArrayContext in
       ret actx_class
     else
       let actx_class : option Class :=
         if distributed
         then Some MPIPyOpenCLArrayContext
         else Some PyOpenCLArrayContext in
       ret actx_class) ;;
  match actx_class with
  | Some c =>
      logger_info
        (mkLog c lazy distributed
           (_HAVE_SINGLE_GRID_WORK_BALANCING || negb lazy)) ;;;
      ret c
  | None => raise UnboundLocalError
  end.

End Grudge.

(** ** A small instance of the external libraries

    Enough of meshmode, arraycontext and pytato to run the module on
    concrete inputs: the base constructors store their arguments the way
    arraycontext does, tags are numbered by counting the parts, programs
    and buffers are fresh references, and the external state counts the
    calls. *)
Module Sample.

Definition sample_base_init (c : Class) (args : list Value)
    (d : gmap string Value) (e : nat)
  : ExtResult (gmap string Value) * nat :=
  match c, args with
  | Meshmode_PyOpenCLArrayContext, [queue; allocator; wl; fds] =>
      (Returns
         (<["_force_device_scalars" := fds]>
            (<["_wait_event_queue_length" :=
                 if is_None wl then VInt 10 else wl]>
               (<["allocator" := allocator]> (<["queue" := queue]> d)))),
       S e)
  | Meshmode_PytatoPyOpenCLArrayContext, [queue; allocator]
  | SingleGridWorkBalancingPytatoArrayContext, [queue; allocator] =>
      (Returns (<["allocator" := allocator]> (<["queue" := queue]> d)), S e)
  | _, _ => (Raises 1%positive, e)
  end.

Definition sample_number_tags (comm : Value) (p : DistributedGraphPartition)
    (base_tag : Value) (e : nat)
  : ExtResult (DistributedGraphPartition * Value) * nat :=
  match base_tag with
  | VInt t => (Returns (p, VInt (t + Z.of_nat (length (parts p)))), S e)
  | _ => (Raises 2%positive, e)
  end.

#[export] Instance sample_lib : Externals nat := {|
  base_init := sample_base_init;
  deduplicate_data_wrappers := fun d e => (Returns d, S e);
  find_distributed_partition := fun d e =>
    (Returns (mkPartition [(1%positive, mkPart 1%positive (map fst (map_to_list d)))] d),
     S e);
  number_distributed_tags := sample_number_tags;
  dag_to_transformed_loopy_prg := fun _ _ _ e =>
    (Returns (VRef (Pos.of_nat (100 + e)), VNone, VNone), S e);
  args_to_cl_buffers := fun _ _ _ e => (Returns ∅, S e);
  execute_distributed_partition := fun p _ _ _ _ _ e =>
    (Returns (var_name_to_result p), S e);
  thaw := fun _ a e => (Returns a, S e)
|}.

Definition w0 : World nat := mkWorld [] [] [] [] 0%nat.

Definition queue0 : Value := VRef 11.
Definition alloc0 : Value := VRef 12.
Definition comm0 : Value := VRef 13.

(** A state with one lazy MPI array context, at reference 0, with base
    tag 5. *)
Definition w_lazy : World nat :=
  (instantiate MPIBasePytatoPyOpenCLArrayContext
     (args_mpi_pytato comm0 queue0 (VInt 5) (Some alloc0)) w0).2.

(** A state with one eager MPI array context, at reference 0. *)
Definition w_eager : World nat :=
  (instantiate MPIPyOpenCLArrayContext
     (args_mpi_pyopencl comm0 queue0 (Some alloc0) None None) w0).2.

Definition caller0 : Caller := mkCaller 0%nat (VRef 1).

Definition dict0 : NamedArrays := {[ "x" := VRef 50 ]}.

Definition template0 : ArrayContainer :=
  Container [(inl "a", Leaf VNone); (inr 1, Container [(inl "b", Leaf VNone)])].

Definition partition0 : DistributedGraphPartition :=
  mkPartition [(1%positive, mkPart 1%positive ["x"])] dict0.

(** A compiled function with two outputs, both named ["x"]. *)
Definition compiled0 : DistributedCompiledFunction :=
  mkCompiled 0%nat partition0 {[ 1%positive := VRef 104 ]} ∅
    {[ [inl "a"] := "x"; [inr 1; inl "b"] := "x" ]} template0.

(** A second instance, over a trivial external state, whose constructors
    insist on a queue that is an object, whose partitioner forgets the
    results (every part names outputs the partition does not have), and
    whose executor refuses to run without programs. *)
#[export] Instance forgetful_lib : Externals unit := {|
  base_init := fun _ args d e =>
    match args !! 0%nat with
    | Some (VRef q) =>
        (Returns (<["allocator" := default VNone (args !! 1%nat)]>
                    (<["queue" := VRef q]> d)), e)
    | _ => (Raises 3%positive, e)
    end;
  deduplicate_data_wrappers := fun d e => (Returns d, e);
  find_distributed_partition := fun d e =>
    (Returns (mkPartition [(1%positive, mkPart 1%positive ["y"])] ∅), e);
  number_distributed_tags := fun _ p t e => (Returns (p, t), e);
  dag_to_transformed_loopy_prg := fun _ _ _ e =>
    (Returns (VRef 7, VNone, VNone), e);
  args_to_cl_buffers := fun _ _ _ e => (Returns ∅, e);
  execute_distributed_partition := fun p prgs _ _ _ _ e =>
    if decide (prgs = ∅) then (Raises 4%positive, e)
    else (Returns (var_name_to_result p), e);
  thaw := fun _ a e => (Returns a, e)
|}.

Definition u0 : World unit := mkWorld [] [] [] [] tt.

(** A lazy MPI array context in the second instance. *)
Definition u_lazy : World unit :=
  (instantiate MPIBasePytatoPyOpenCLArrayContext
     (args_mpi_pytato comm0 queue0 (VInt 5) (Some alloc0)) u0).2.

(** A lazy MPI array context whose base tag is [None]. *)
Definition w_untagged : World nat :=
  (instantiate MPIBasePytatoPyOpenCLArrayContext
     (args_mpi_pytato comm0 queue0 VNone (Some alloc0)) w0).2.

(** A lazy MPI array context built without an allocator. *)
Definition w_no_allocator : World nat :=
  (instantiate MPIBasePytatoPyOpenCLArrayContext
     (args_mpi_pytato comm0 queue0 (VInt 5) None) w0).2.

(** A state with one object of an MPI class that has no attributes. *)
Definition w_bare : World nat :=
  mkWorld [mkObj MPIPyOpenCLArrayContext ∅] [] [] [] 0%nat.

(** The lazy MPI array context of [w_lazy]. *)
Definition o_lazy : Obj :=
  mkObj MPIBasePytatoPyOpenCLArrayContext
    (<["mpi_base_tag" := VInt 5]>
       (<["mpi_communicator" := comm0]>
          (<["allocator" := alloc0]> (<["queue" := queue0]> ∅)))).

(** A compiled function without programs. *)
Definition compiled_empty : DistributedCompiledFunction :=
  mkCompiled 0%nat partition0 ∅ ∅ ∅ (Leaf VNone).

(** A compiled function one of whose outputs has no name. *)
Definition compiled_unnamed : DistributedCompiledFunction :=
  mkCompiled 0%nat partition0 {[ 1%positive := VRef 104 ]} ∅
    {[ [inl "a"] := "x" ]} template0.

End Sample.

(** ** Vocabulary of the statements *)

(** The array context classes a user of the module instantiates. *)
Definition public_classes : list Class :=
  [PyOpenCLArrayContext; PytatoPyOpenCLArrayContext; MPIPyOpenCLArrayContext;
   MPIBasePytatoPyOpenCLArrayContext;
   MPISingleGridWorkBalancingPytatoArrayContext].

(** The constructor arguments in the shape of the signature of [c]. *)
Definition ctor_args (c : Class) (mpi_communicator queue mpi_base_tag : Value)
    (allocator wait_event_queue_length force_device_scalars : option Value)
  : CtorArgs :=
  match c with
  | PyOpenCLArrayContext =>
      args_pyopencl queue allocator wait_event_queue_length force_device_scalars
  | PytatoPyOpenCLArrayContext => args_pytato queue allocator
  | MPIPyOpenCLArrayContext =>
      args_mpi_pyopencl mpi_communicator queue allocator
        wait_event_queue_length force_device_scalars
  | _ => args_mpi_pytato mpi_communicator queue mpi_base_tag allocator
  end.

(** The meshmode class whose constructor a construction of [c] ends in. *)
Definition meshmode_base (c : Class) : Class :=
  match c with
  | PyOpenCLArrayContext | MPIPyOpenCLArrayContext => Meshmode_PyOpenCLArrayContext
  | MPISingleGridWorkBalancingPytatoArrayContext =>
      SingleGridWorkBalancingPytatoArrayContext
  | _ => Meshmode_PytatoPyOpenCLArrayContext
  end.

(** The arguments that constructor is called with. *)
Definition base_args (c : Class) (queue : Value)
    (allocator wait_event_queue_length force_device_scalars : option Value)
  : list Value :=
  match c with
  | PyOpenCLArrayContext | MPIPyOpenCLArrayContext =>
      [queue; default VNone allocator; default VNone wait_event_queue_length;
       default (VBool false) force_device_scalars]
  | _ => [queue; default VNone allocator]
  end.

(** The attributes the module itself sets after the base constructor. *)
Definition own_attrs (c : Class) (mpi_communicator mpi_base_tag : Value)
    (d : gmap string Value) : gmap string Value :=
  match c with
  | MPIPyOpenCLArrayContext => <["mpi_communicator" := mpi_communicator]> d
  | MPIBasePytatoPyOpenCLArrayContext
  | MPISingleGridWorkBalancingPytatoArrayContext =>
      <["mpi_base_tag" := mpi_base_tag]>
        (<["mpi_communicator" := mpi_communicator]> d)
  | _ => d
  end.

(** How many [__init__] bodies with the allocator check a construction of
    [c] runs through. *)
Definition allocator_checks (c : Class) : nat :=
  match c with
  | MPIBasePytatoPyOpenCLArrayContext => 2
  | _ => 1
  end.

Definition allocator_warnings (c : Class) (allocator : option Value)
  : list string :=
  if is_None (default VNone allocator)
  then replicate (allocator_checks c) msg_no_allocator
  else [].

(** The state a construction of [c] ends in, given what the meshmode
    constructor did. *)
Definition constructed {Ext} (w : World Ext) (c : Class)
    (mpi_communicator queue mpi_base_tag : Value)
    (allocator wait_event_queue_length force_device_scalars : option Value)
    (r : ExtResult (gmap string Value) * Ext) : Result loc * World Ext :=
  let args :=
    base_args c queue allocator wait_event_queue_length force_device_scalars in
  let w' (o : Obj) :=
    mkWorld (heap w ++ [o]) (warnings w ++ allocator_warnings c allocator)
      (logged w)
      (trace w ++ [call_base_init (meshmode_base c) (length (heap w)) args])
      r.2 in
  match r.1 with
  | Returns d =>
      (Ok (length (heap w)),
       w' (mkObj c (own_attrs c mpi_communicator mpi_base_tag d)))
  | Raises code => (Raise (ExternalError code), w' (mkObj c ∅))
  end.

(** What it means for the construction [c(a)] to be a pure shim over the
    constructor of [base] called with [args]: that call is the only one
    made, the new object has the attributes the call set and no others,
    and the outcome is the outcome of the call. *)
Definition forwards_to {Ext} `{!Externals Ext} (c : Class) (a : CtorArgs) (base : Class)
    (args : list Value) (w : World Ext) : Prop :=
  let self := length (heap w) in
  let b := base_init base args ∅ (ext w) in
  let r := instantiate c a w in
  r.1 = match b.1 with
        | Returns _ => Ok self
        | Raises code => Raise (ExternalError code)
        end
  /\ trace r.2 = trace w ++ [call_base_init base self args]
  /\ heap r.2
     = heap w ++ [mkObj c match b.1 with Returns d => d | Raises _ => ∅ end]
  /\ ext r.2 = b.2.

(** The concrete classes that derive from [MPIBasedArrayContext]. *)
Definition mpi_classes : list Class :=
  [MPIPyOpenCLArrayContext; MPIBasePytatoPyOpenCLArrayContext;
   MPISingleGridWorkBalancingPytatoArrayContext].

(** The attributes [clone] reads from the original and passes on. *)
Definition carried (c : Class) : list string :=
  ["mpi_communicator"; "queue"; "allocator"] ++
  (if is_lazy_class c then ["mpi_base_tag"]
   else ["_wait_event_queue_length"; "_force_device_scalars"]).

(** Of those, the ones that reach the meshmode constructor as its
    arguments, in the order of the call. *)
Definition base_stored (c : Class) : list string :=
  ["queue"; "allocator"] ++
  (if is_lazy_class c then []
   else ["_wait_event_queue_length"; "_force_device_scalars"]).

(** The arguments the meshmode constructor gets when [o] is cloned. *)
Definition clone_base_args (o : Obj) : list Value :=
  (fun name => default VNone (attrs o !! name)) <$> base_stored (cls o).

(** The leaves of a container with the tuple of keys leading to each, in
    traversal order. *)
Fixpoint leaves (keys : Keys) (ary : ArrayContainer) : list (Keys * Value) :=
  match ary with
  | Leaf a => [(keys, a)]
  | Container items =>
      (fix go (l : list (Key * ArrayContainer)) : list (Keys * Value) :=
         match l with
         | [] => []
         | (key, subary) :: rest => leaves (keys ++ [key]) subary ++ go rest
         end) items
  end.

(** The structure of a container: its nesting and keys, the arrays
    blanked out. *)
Fixpoint skeleton (ary : ArrayContainer) : ArrayContainer :=
  match ary with
  | Leaf _ => Leaf VNone
  | Container items =>
      Container
        ((fix go (l : list (Key * ArrayContainer)) : list (Key * ArrayContainer) :=
            match l with
            | [] => []
            | (key, subary) :: rest => (key, skeleton subary) :: go rest
            end) items)
  end.

(** The same three traversals on the item list of a container. *)
Definition rec_keyed_map_items {Ext} (f : Keys -> Value -> M (Ext:=Ext) Value)
    (keys : Keys)
  : list (Key * ArrayContainer) -> M (Ext:=Ext) (list (Key * ArrayContainer)) :=
  fix go l :=
    match l with
    | [] => ret []
    | (key, subary) :: rest =>
        r <- rec_keyed_map f (keys ++ [key]) subary ;;
        rs <- go rest ;;
        ret ((key, r) :: rs)
    end.

Definition leaves_items (keys : Keys)
  : list (Key * ArrayContainer) -> list (Keys * Value) :=
  fix go l :=
    match l with
    | [] => []
    | (key, subary) :: rest => leaves (keys ++ [key]) subary ++ go rest
    end.

Definition skeleton_items
  : list (Key * ArrayContainer) -> list (Key * ArrayContainer) :=
  fix go l :=
    match l with
    | [] => []
    | (key, subary) :: rest => (key, skeleton subary) :: go rest
    end.

(** [v] is the thawed entry of [out_dict] under the name that
    [output_id_to_name_in_program] gives for [keys]: a call of [thaw] on
    that entry returned [v]. *)
Definition thawed_entry {Ext} `{!Externals Ext}
    (self : DistributedCompiledFunction) (actx_obj : option Obj)
    (out_dict : gmap string Value) (keys : Keys) (v : Value) : Prop :=
  exists (name : string) (a : Value) (e : Ext),
    output_id_to_name_in_program self !! keys = Some name
    /\ out_dict !! name = Some a
    /\ (thaw actx_obj a e).1 = Returns v.

(** Leaf by leaf: the same keys, and each result leaf is the thawed
    entry for its keys. *)
Definition leaves_thawed {Ext} `{!Externals Ext}
    (self : DistributedCompiledFunction) (actx_obj : option Obj)
    (out_dict : gmap string Value)
    (result template : list (Keys * Value)) : Prop :=
  Forall2
    (fun kv ka => kv.1 = ka.1 /\ thawed_entry self actx_obj out_dict kv.1 kv.2)
    result template.

(** Every leaf of the template has a name, and the name an entry. *)
Definition outputs_present (self : DistributedCompiledFunction)
    (out_dict : gmap string Value) (template : list (Keys * Value)) : Prop :=
  Forall
    (fun ka => exists name a,
       output_id_to_name_in_program self !! ka.1 = Some name
       /\ out_dict !! name = Some a)
    template.

Definition is_thaw_call (l : loc) (c : Call) : Prop :=
  exists a, c = call_thaw l a.

(** What a call of a compiled function may change in the state: the
    external state, and the trace, by calls of [thaw]. *)
Definition thaws_only {Ext} (l : loc) (w w' : World Ext) : Prop :=
  heap w' = heap w
  /\ warnings w' = warnings w
  /\ logged w' = logged w
  /\ exists calls, trace w' = trace w ++ calls /\ Forall (is_thaw_call l) calls.

(** [o'] is [o] up to the value of [mpi_base_tag]. *)
Definition same_but_base_tag (o o' : Obj) : Prop :=
  cls o' = cls o
  /\ forall n : string, n <> "mpi_base_tag" -> attrs o' !! n = attrs o !! n.

(** The warning [msg] is issued while [c] runs from the state [w]. *)
Definition warned_during {Ext A} (msg : string) (c : M (Ext:=Ext) A)
    (w : World Ext) : Prop :=
  msg ∈ drop (length (warnings w)) (warnings (c w).2).

(** ** Further code of the module *)

(** [MPIPytatoArrayContextBase.compile] (lines 261-262): the caller that
    is returned holds the array context and the function. *)
Definition MPIPytatoArrayContextBase_compile (self : loc) (f : Value) : Caller :=
  mkCaller self f.

(** The name [MPIPytatoArrayContext], bound at lines 320-329 by the value
    of [_HAVE_SINGLE_GRID_WORK_BALANCING]. *)
Definition MPIPytatoArrayContext (_HAVE_SINGLE_GRID_WORK_BALANCING : bool)
  : Class :=
  if _HAVE_SINGLE_GRID_WORK_BALANCING
  then MPISingleGridWorkBalancingPytatoArrayContext
  else MPIBasePytatoPyOpenCLArrayContext.

(** The base classes named in each [class] statement, in order (lines
    86, 110, 126, 244, 276, 312, 321); the bases of the meshmode classes
    lie outside the module. *)
Definition bases (c : Class) : list Class :=
  match c with
  | Meshmode_PyOpenCLArrayContext
  | Meshmode_PytatoPyOpenCLArrayContext
  | SingleGridWorkBalancingPytatoArrayContext => []
  | PyOpenCLArrayContext => [Meshmode_PyOpenCLArrayContext]
  | PytatoPyOpenCLArrayContext => [Meshmode_PytatoPyOpenCLArrayContext]
  | MPIBasedArrayContext => []
  | MPIPytatoArrayContextBase => [MPIBasedArrayContext]
  | MPIPyOpenCLArrayContext => [PyOpenCLArrayContext; MPIBasedArrayContext]
  | MPIBasePytatoPyOpenCLArrayContext =>
      [MPIPytatoArrayContextBase; PytatoPyOpenCLArrayContext]
  | MPISingleGridWorkBalancingPytatoArrayContext =>
      [MPIPytatoArrayContextBase; SingleGridWorkBalancingPytatoArrayContext]
  end.

(** Python's C3 linearisation. A head is good when it is in the tail of
    no sequence; the merge takes the first good head, removes it from
    every sequence, and goes on. *)
Definition good_head (seqs : list (list Class)) (c : Class) : bool :=
  forallb (fun s => negb (bool_decide (c ∈ tail s))) seqs.

Fixpoint pick_head (seqs candidates : list (list Class)) : option Class :=
  match candidates with
  | [] => None
  | [] :: rest => pick_head seqs rest
  | (c :: _) :: rest => if good_head seqs c then Some c else pick_head seqs rest
  end.

Definition drop_head (c : Class) (s : list Class) : list Class :=
  match s with
  | c' :: t => if decide (c' = c) then t else s
  | [] => []
  end.

Definition nonempty (s : list Class) : bool :=
  match s with [] => false | _ => true end.

Fixpoint c3_merge (fuel : nat) (seqs : list (list Class))
  : option (list Class) :=
  match List.filter nonempty seqs with
  | [] => Some []
  | seqs' =>
      match fuel with
      | O => None
      | S n =>
          match pick_head seqs' seqs' with
          | None => None
          | Some c =>
              match c3_merge n (drop_head c <$> seqs') with
              | Some l => Some (c :: l)
              | None => None
              end
          end
      end
  end.

Fixpoint all_some {A} (l : list (option A)) : option (list A) :=
  match l with
  | [] => Some []
  | Some a :: rest =>
      match all_some rest with Some r => Some (a :: r) | None => None end
  | None :: _ => None
  end.

Fixpoint linearise (fuel : nat) (c : Class) : option (list Class) :=
  match fuel with
  | O => None
  | S n =>
      match all_some (linearise n <$> bases c) with
      | Some ls =>
          match c3_merge 16 (ls ++ [bases c]) with
          | Some l => Some (c :: l)
          | None => None
          end
      | None => None
      end
  end.

(** The dict handed to code generation for a part: the results of the
    partition under the output names of the part. *)
Definition part_outputs (dp : DistributedGraphPartition) (part : Part)
  : NamedArrays :=
  filter (fun kv => kv.1 ∈ output_names part) (var_name_to_result dp).

(** Every output name of the part has a result in the partition. *)
Definition part_complete (dp : DistributedGraphPartition) (part : Part) : Prop :=
  Forall (fun name => is_Some (var_name_to_result dp !! name))
    (output_names part).

(** The leaf with these keys has no name, or its name no entry. *)
Definition output_missing (self : DistributedCompiledFunction)
    (out_dict : gmap string Value) (ka : Keys * Value) : Prop :=
  match output_id_to_name_in_program self !! ka.1 with
  | None => True
  | Some name => out_dict !! name = None
  end.

(** The call is a [thaw] of the entry for the keys of the leaf. *)
Definition thaw_of_leaf (self : DistributedCompiledFunction)
    (out_dict : gmap string Value) (c : Call) (ka : Keys * Value) : Prop :=
  exists name a,
    output_id_to_name_in_program self !! ka.1 = Some name
    /\ out_dict !! name = Some a
    /\ c = call_thaw (actx self) a.

(** Some output name of the part has no result in the partition. *)
Definition part_incomplete (dp : DistributedGraphPartition) (part : Part)
  : Prop :=
  Exists (fun name => var_name_to_result dp !! name = None)
    (output_names part).

(** Code generation returns on every input. *)
Definition loopy_returns {Ext} `{!Externals Ext} : Prop :=
  forall (self : Caller) (o : option Obj) (d : NamedArrays) (e : Ext),
    exists r, (dag_to_transformed_loopy_prg self o d e).1 = Returns r.

(** [thaw] returns on every input. *)
Definition thaw_returns {Ext} `{!Externals Ext} : Prop :=
  forall (o : option Obj) (a : Value) (e : Ext),
    exists v, (thaw o a e).1 = Returns v.

(** A pair of branches that do not belong together, either way round:
    one library has its half of the single-grid work balancing and the
    other lacks its half. *)
Definition branches_differ (env : ImportEnv) : bool :=
  xorb (meshmode_has_single_grid env) (loopy_has_get_idis env).

(** The program [v] stored for the part id [i] is what a code generation
    call on the array context object [o], for a part among [ps] with that
    id and on the outputs of that part, returned as the first of its
    three results. *)
Definition generated_for {Ext} `{!Externals Ext} (self : Caller)
    (o : option Obj) (dp : DistributedGraphPartition)
    (ps : list (PartId * Part)) (i : PartId) (v : Value) : Prop :=
  exists (ip : PartId * Part) (e : Ext) (r : Value * Value * Value),
    ip ∈ ps
    /\ pid ip.2 = i
    /\ (dag_to_transformed_loopy_prg self o (part_outputs dp ip.2) e).1
       = Returns r
    /\ v = r.1.1.

(** ** Compilation again, with base tags of any kind

    [MPIPytatoArrayContextBase.__init__] stores as [mpi_base_tag]
    whatever it is given, and line 155 compares with [==]. The values
    above all equal themselves; a float nan does not. In this second
    embedding of [_dag_to_compiled_func] the attributes of the caller's
    array context may hold one, and the library routines are handed the
    whole state, the attributes included, so that what a routine leaves
    alone is a hypothesis of a statement and not a consequence of its
    type. The state is cut down to what the method touches: the
    attributes of [self.actx] and the state of the outside world. *)
Module AnyTag.

(** A float nan stands here for every value that [==] does not find equal
    to itself. *)
Inductive PyValue :=
| Plain (v : Value)
| FloatNaN.

(** [x == y]: as before on the values above; nan equals nothing, itself
    included. *)
Definition py_eq_any (x y : PyValue) : bool :=
  match x, y with
  | Plain a, Plain b => py_eq a b
  | _, _ => false
  end.

Record State (Ext : Type) := mkState {
  actx_attrs : gmap string PyValue;
  outside : Ext
}.
Arguments mkState {Ext}.
Arguments actx_attrs {Ext}.
Arguments outside {Ext}.

Definition Run (Ext A : Type) : Type := State Ext -> Result A * State Ext.

(** The library routines the method calls. *)
Record Library (Ext : Type) := mkLibrary {
  deduplicate_data_wrappers :
    NamedArrays -> State Ext -> ExtResult NamedArrays * State Ext;
  find_distributed_partition :
    NamedArrays -> State Ext -> ExtResult DistributedGraphPartition * State Ext;
  number_distributed_tags :
    PyValue -> DistributedGraphPartition -> PyValue ->
    State Ext -> ExtResult (DistributedGraphPartition * PyValue) * State Ext;
  dag_to_transformed_loopy_prg :
    Caller -> NamedArrays ->
    State Ext -> ExtResult (Value * Value * Value) * State Ext
}.
Arguments deduplicate_data_wrappers {Ext}.
Arguments find_distributed_partition {Ext}.
Arguments number_distributed_tags {Ext}.
Arguments dag_to_transformed_loopy_prg {Ext}.

Section Model.
Context {Ext : Type} (lib : Library Ext).

Definition and_then {A B} (c : Run Ext A) (k : A -> Run Ext B) : Run Ext B :=
  fun s =>
    match c s with
    | (Ok a, s') => k a s'
    | (Raise e, s') => (Raise e, s')
    end.

Definition returning {A} (a : A) : Run Ext A := fun s => (Ok a, s).

Definition raising {A} (e : Exn) : Run Ext A := fun s => (Raise e, s).

(** A call of a library routine. *)
Definition library_call {A} (f : State Ext -> ExtResult A * State Ext)
  : Run Ext A :=
  fun s =>
    match (f s).1 with
    | Returns a => (Ok a, (f s).2)
    | Raises code => (Raise (ExternalError code), (f s).2)
    end.

(** [self.actx.name] *)
Definition getattr_actx (name : string) : Run Ext PyValue :=
  fun s =>
    match actx_attrs s !! name with
    | Some v => (Ok v, s)
    | None => (Raise AttributeError, s)
    end.

(** [self.actx.name = v] *)
Definition setattr_actx (name : string) (v : PyValue) : Run Ext unit :=
  fun s => (Ok tt, mkState (<[name := v]> (actx_attrs s)) (outside s)).

(** [assert b] *)
Definition assertion (b : bool) : Run Ext unit :=
  if b then returning tt else raising AssertionError.

(** The dict comprehension of lines 167-169. *)
Fixpoint named_results (var_name_to_result : gmap string Value)
    (names : list string) (acc : NamedArrays) : Run Ext NamedArrays :=
  match names with
  | [] => returning acc
  | var_name :: rest =>
      match var_name_to_result !! var_name with
      | Some v => named_results var_name_to_result rest (<[var_name := v]> acc)
      | None => raising KeyError
      end
  end.

(** The loop of lines 165-170. *)
Fixpoint compile_parts (self : Caller) (dp : DistributedGraphPartition)
    (ps : list (PartId * Part)) (part_id_to_prg : gmap PartId Value)
  : Run Ext (gmap PartId Value) :=
  match ps with
  | [] => returning part_id_to_prg
  | (_, part) :: rest =>
      and_then (named_results (var_name_to_result dp) (output_names part) ∅)
        (fun d =>
      and_then (library_call (dag_to_transformed_loopy_prg lib self d))
        (fun r =>
      compile_parts self dp rest (<[pid part := r.1.1]> part_id_to_prg)))
  end.

(** [_DistributedLazilyCompilingFunctionCaller._dag_to_compiled_func]
    (lines 133-178), statement by statement. *)
Definition _dag_to_compiled_func (self : Caller)
    (dict_of_named_arrays : NamedArrays)
    (input_id_to_name_in_program output_id_to_name_in_program : gmap Keys string)
    (output_template : ArrayContainer)
  : Run Ext DistributedCompiledFunction :=
  and_then (library_call (deduplicate_data_wrappers lib dict_of_named_arrays))
    (fun dict_of_named_arrays =>
  and_then (library_call (find_distributed_partition lib dict_of_named_arrays))
    (fun distributed_partition =>
  and_then (getattr_actx "mpi_base_tag")
    (fun prev_mpi_base_tag =>
  and_then (getattr_actx "mpi_communicator")
    (fun comm =>
  and_then (library_call
              (number_distributed_tags lib comm distributed_partition
                 prev_mpi_base_tag))
    (fun numbered =>
  let distributed_partition := numbered.1 in
  let _new_mpi_base_tag := numbered.2 in
  and_then (getattr_actx "mpi_base_tag")
    (fun cur =>
  and_then (assertion (py_eq_any prev_mpi_base_tag cur))
    (fun _ =>
  and_then (setattr_actx "mpi_base_tag" _new_mpi_base_tag)
    (fun _ =>
  and_then (compile_parts self distributed_partition
              (parts distributed_partition) ∅)
    (fun part_id_to_prg =>
  returning
    (mkCompiled (caller_actx self) distributed_partition part_id_to_prg
       input_id_to_name_in_program output_id_to_name_in_program
       output_template)))))))))).

End Model.

(** A library for concrete runs: no routine writes an attribute, the
    partition has one part, and the tags are numbered from the base tag
    on when it is an int. *)
Definition one_part : DistributedGraphPartition :=
  mkPartition [(1%positive, mkPart 1%positive ["x"])] {[ "x" := VRef 50 ]}.

Definition quiet_library : Library unit := {|
  deduplicate_data_wrappers := fun d s => (Returns d, s);
  find_distributed_partition := fun d s => (Returns one_part, s);
  number_distributed_tags := fun comm p t s =>
    (Returns (p, match t with
                 | Plain (VInt z) => Plain (VInt (z + 1))
                 | _ => t
                 end), s);
  dag_to_transformed_loopy_prg := fun _ _ s => (Returns (VRef 7, VNone, VNone), s)
|}.

(** The same library, but for a renumbering that writes the new tag to
    the array context itself. *)
Definition meddling_library : Library unit := {|
  deduplicate_data_wrappers := deduplicate_data_wrappers quiet_library;
  find_distributed_partition := find_distributed_partition quiet_library;
  number_distributed_tags := fun comm p t s =>
    let r := number_distributed_tags quiet_library comm p t s in
    match r.1 with
    | Returns (_, new) =>
        (r.1, mkState (<["mpi_base_tag" := new]> (actx_attrs r.2)) (outside r.2))
    | Raises _ => r
    end;
  dag_to_transformed_loopy_prg := dag_to_transformed_loopy_prg quiet_library
|}.

(** The attributes of an array context with the given base tag. *)
Definition context_with_tag (tag : PyValue) : State unit :=
  mkState {[ "mpi_communicator" := Plain (VRef 13); "mpi_base_tag" := tag ]} tt.

End AnyTag.

(** Nothing modifies the base tag during the renumbering: the call of
    [number_distributed_tags] leaves the attribute as it finds it. *)
Definition keeps_base_tag {Ext} (lib : AnyTag.Library Ext) : Prop :=
  forall (comm : AnyTag.PyValue) (p : DistributedGraphPartition)
         (tag : AnyTag.PyValue) (s : AnyTag.State Ext),
    AnyTag.actx_attrs (AnyTag.number_distributed_tags lib comm p tag s).2
      !! "mpi_base_tag"
    = AnyTag.actx_attrs s !! "mpi_base_tag".

(** The compilation gets as far as the assertion, having read [tag] as
    the base tag: the two calls before return, the context has a base
    tag and a communicator, and the renumbering returns. *)
Definition reaches_assertion_with {Ext} (lib : AnyTag.Library Ext)
    (d : NamedArrays) (s : AnyTag.State Ext) (tag : AnyTag.PyValue) : Prop :=
  exists (d1 : NamedArrays) (s1 : AnyTag.State Ext)
         (p : DistributedGraphPartition) (s2 : AnyTag.State Ext)
         (comm : AnyTag.PyValue)
         (numbered : DistributedGraphPartition * AnyTag.PyValue),
    AnyTag.deduplicate_data_wrappers lib d s = (Returns d1, s1)
    /\ AnyTag.find_distributed_partition lib d1 s1 = (Returns p, s2)
    /\ AnyTag.actx_attrs s2 !! "mpi_base_tag" = Some tag
    /\ AnyTag.actx_attrs s2 !! "mpi_communicator" = Some comm
    /\ (AnyTag.number_distributed_tags lib comm p tag s2).1 = Returns numbered.

(** * Properties *)

(** ** Basic facts about the monad and the heap *)

Lemma py_eq_refl (v : Value) : py_eq v v = true.
Proof.
  destruct v as [ | b | z | r ]; simpl.
  - reflexivity.
  - by destruct b.
  - apply Z.eqb_refl.
  - apply Pos.eqb_refl.
Qed.

(** Membership of a given element in a given list. *)
Ltac in_list := by repeat constructor.

Lemma mpi_classes_public (c : Class) : c ∈ mpi_classes -> c ∈ public_classes.
Proof.
  unfold mpi_classes, public_classes. intros H.
  repeat (apply elem_of_cons in H as [-> | H]); [ in_list .. | by inversion H ].
Qed.

Lemma world_eta {Ext} (w : World Ext) :
  mkWorld (heap w) (warnings w) (logged w) (trace w) (ext w) = w.
Proof. by destruct w. Qed.

Lemma lookup_fresh (h : list Obj) (o : Obj) : (h ++ [o]) !! length h = Some o.
Proof. by rewrite list_lookup_middle. Qed.

Lemma insert_fresh (h : list Obj) (o o' : Obj) :
  <[length h := o']> (h ++ [o]) = h ++ [o'].
Proof.
  rewrite insert_app_r_alt by lia. by rewrite Nat.sub_diag.
Qed.

Lemma lookup_insert_same (h : list Obj) (l : loc) (o o' : Obj) :
  h !! l = Some o -> <[l := o']> h !! l = Some o'.
Proof.
  intros H. apply list_lookup_insert_eq. by eapply lookup_lt_Some.
Qed.

(** ** Class selection *)

(** C2. For the eager case the function returns [MPIPyOpenCLArrayContext]
    when [distributed] is set and [PyOpenCLArrayContext] when it is not,
    whatever [_HAVE_SINGLE_GRID_WORK_BALANCING] is, from every state. *)
Theorem eager_selection {Ext} (have : bool) (w : World Ext) :
  (get_reasonable_array_context_class have false true w).1
    = Ok MPIPyOpenCLArrayContext
  /\ (get_reasonable_array_context_class have false false w).1
    = Ok PyOpenCLArrayContext.
Proof. split; reflexivity. Qed.

(** The lazy, distributed case. *)
Lemma lazy_distributed_selection {Ext} (have : bool) (w : World Ext) :
  (get_reasonable_array_context_class have true true w).1
    = Ok (if have then MPISingleGridWorkBalancingPytatoArrayContext
          else MPIBasePytatoPyOpenCLArrayContext).
Proof. by destruct have. Qed.

(** C1 (fails on the code). With [lazy=True] and [distributed=False] the
    assignment under [if not distributed:] is overwritten by the
    unconditional one that follows it, so the function returns the MPI
    class of the distributed case: the result is the same as with
    [distributed=True], and it derives from [MPIBasedArrayContext]. *)
Theorem lazy_nondistributed_returns_mpi_class {Ext} (have : bool) (w : World Ext) :
  (get_reasonable_array_context_class have true false w).1
    = Ok (if have then MPISingleGridWorkBalancingPytatoArrayContext
          else MPIBasePytatoPyOpenCLArrayContext)
  /\ (get_reasonable_array_context_class have true false w).1
    = (get_reasonable_array_context_class have true true w).1
  /\ (forall c,
        (get_reasonable_array_context_class have true false w).1 = Ok c ->
        is_mpi_based c = true).
Proof.
  destruct have; (split; [reflexivity | split; [reflexivity | ]]);
    intros c Hc; cbv in Hc; by inversion Hc.
Qed.

(** ** Warnings about the library branches *)

(** The import returns (it does not raise), sets
    [_HAVE_SINGLE_GRID_WORK_BALANCING], and issues the mismatch warning
    exactly when the branches are mismatched. *)
Lemma import_module_run {Ext} (env : ImportEnv) (w : World Ext) :
  import_module env w =
    (Ok (meshmode_has_single_grid env && loopy_has_get_idis env),
     mkWorld (heap w)
       (warnings w ++
          (if branches_mismatched env then [msg_branch_mismatch] else []))
       (logged w) (trace w) (ext w)).
Proof.
  destruct env as [[] []]; unfold import_module, branches_mismatched; simpl;
    rewrite ?app_nil_r, ?world_eta; reflexivity.
Qed.

(** ** Construction *)

Section Construction.
Context {Ext : Type} `{!Externals Ext}.

Lemma meshmode_init_run (c : Class) (self : loc) (args : list Value)
    (w : World Ext) (o : Obj) :
  heap w !! self = Some o ->
  meshmode_init c self args w =
    let r := base_init c args (attrs o) (ext w) in
    let w' h :=
      mkWorld h (warnings w) (logged w)
        (trace w ++ [call_base_init c self args]) r.2 in
    match r.1 with
    | Returns d => (Ok tt, w' (<[self := mkObj (cls o) d]> (heap w)))
    | Raises code => (Raise (ExternalError code), w' (heap w))
    end.
Proof.
  intros H. unfold meshmode_init. rewrite H.
  unfold bind, external, set_heap. simpl.
  by destruct (base_init c args (attrs o) (ext w)).1.
Qed.

(** A construction runs the allocator checks, calls the meshmode
    constructor once, with the arguments it was given, and then sets
    the attributes of the MPI classes. *)
Lemma instantiate_run (c : Class) (comm queue tag : Value)
    (al wl fd : option Value) (w : World Ext) :
  c ∈ public_classes ->
  instantiate c (ctor_args c comm queue tag al wl fd) w =
    constructed w c comm queue tag al wl fd
      (base_init (meshmode_base c) (base_args c queue al wl fd) ∅ (ext w)).
Proof.
  intros Hc. unfold public_classes in Hc.
  repeat (apply elem_of_cons in Hc as [-> | Hc]); [ .. | by inversion Hc ].
  all: unfold instantiate, constructed, allocator_warnings; simpl.
  all: unfold MPIPytatoArrayContextBase_init, MPIPyOpenCLArrayContext_init,
         PyOpenCLArrayContext_init, PytatoPyOpenCLArrayContext_init,
         super_init_meshmode.
  all: unfold bind, alloc, type_of, ret, raise; simpl.
  all: destruct (is_None (default VNone al)) eqn:Hal; simpl.
  all: rewrite ?lookup_fresh; simpl; rewrite ?Hal; simpl.
  all: rewrite ?lookup_fresh; simpl.
  all: erewrite meshmode_init_run by (simpl; apply lookup_fresh); simpl.
  all: destruct (base_init _ _ _ _).1; simpl.
  all: unfold setattr, set_heap; simpl.
  all: repeat (rewrite ?insert_fresh, ?lookup_fresh; simpl).
  all: by rewrite <- ?app_assoc, ?app_nil_r.
Qed.

Lemma constructed_warnings (w : World Ext) c comm queue tag al wl fd r :
  warnings (constructed w c comm queue tag al wl fd r).2
    = warnings w ++ allocator_warnings c al.
Proof. unfold constructed. by destruct r.1. Qed.

Lemma constructed_trace (w : World Ext) c comm queue tag al wl fd r :
  trace (constructed w c comm queue tag al wl fd r).2
    = trace w ++ [call_base_init (meshmode_base c) (length (heap w))
                    (base_args c queue al wl fd)].
Proof. unfold constructed. by destruct r.1. Qed.

(** C4. Constructing any of the public classes with the allocator left
    out or [None] issues the no-allocator warning (once per [__init__]
    body on the way, so at least once), and the construction returns the
    new object whenever the meshmode constructor returns; with an
    allocator that is not [None] no warning is issued. *)
Theorem missing_allocator_warns (c : Class) (comm queue tag : Value)
    (al wl fd : option Value) (w : World Ext) (d : gmap string Value) :
  c ∈ public_classes ->
  (base_init (meshmode_base c) (base_args c queue al wl fd) ∅ (ext w)).1
    = Returns d ->
  let r := instantiate c (ctor_args c comm queue tag al wl fd) w in
  r.1 = Ok (length (heap w))
  /\ (al = None \/ al = Some VNone ->
      (0 < allocator_checks c)%nat
      /\ warnings r.2
         = warnings w ++ replicate (allocator_checks c) msg_no_allocator)
  /\ (forall a, al = Some a -> a <> VNone -> warnings r.2 = warnings w).
Proof.
  intros Hc Hd r. subst r. rewrite (instantiate_run c) by done.
  rewrite constructed_warnings.
  split; [ | split ].
  - unfold constructed. by rewrite Hd.
  - intros Hal. split.
    + destruct c; simpl; lia.
    + unfold allocator_warnings. by destruct Hal as [-> | ->].
  - intros a -> Ha. unfold allocator_warnings. simpl.
    destruct a; simpl; rewrite ?app_nil_r; congruence.
Qed.

(** C7. The constructors of [PyOpenCLArrayContext] and
    [PytatoPyOpenCLArrayContext] make one call, to the constructor of
    the meshmode base class, with exactly the arguments they were given
    (defaults filled in), and the attributes of the new object are the
    ones that call set: the shim adds none. When the base constructor
    raises, so does the shim. *)
Theorem shims_forward_to_base (queue : Value) (al wl fd : option Value)
    (w : World Ext) :
  forwards_to PyOpenCLArrayContext (args_pyopencl queue al wl fd)
    Meshmode_PyOpenCLArrayContext
    [queue; default VNone al; default VNone wl; default (VBool false) fd] w
  /\ forwards_to PytatoPyOpenCLArrayContext (args_pytato queue al)
    Meshmode_PytatoPyOpenCLArrayContext
    [queue; default VNone al] w.
Proof.
  split; unfold forwards_to.
  - pose proof (instantiate_run PyOpenCLArrayContext VNone queue VNone
                  al wl fd w) as H.
    simpl in H. rewrite H by (unfold public_classes; in_list).
    unfold constructed. simpl.
    by destruct (base_init _ _ _ _).1.
  - pose proof (instantiate_run PytatoPyOpenCLArrayContext VNone queue VNone
                  al wl fd w) as H.
    simpl in H. rewrite H by (unfold public_classes; in_list).
    unfold constructed. simpl.
    by destruct (base_init _ _ _ _).1.
Qed.

End Construction.

(** ** Distributed compilation *)

Section Compilation.
Context {Ext : Type} `{!Externals Ext}.

Lemma named_results_frame (m : gmap string Value) (names : list string)
    (acc : NamedArrays) (w : World Ext) :
  (named_results m names acc w).2 = w
  /\ (named_results m names acc w).1 <> Raise AssertionError.
Proof.
  revert acc. induction names as [ | n names IH ]; intros acc; simpl.
  - done.
  - unfold bind, getitem. destruct (m !! n); simpl.
    + apply IH.
    + done.
Qed.

(** The loop over the parts calls into the external library and builds
    dicts; it assigns no attribute and asserts nothing. *)
Lemma compile_parts_frame (self : Caller) (dp : DistributedGraphPartition)
    (ps : list (PartId * Part)) (acc : gmap PartId Value) (w : World Ext) :
  let r := compile_parts self dp ps acc w in
  heap r.2 = heap w
  /\ warnings r.2 = warnings w
  /\ logged r.2 = logged w
  /\ (exists calls,
        trace r.2 = trace w ++ calls
        /\ Forall (fun c => exists d, c = call_dag_to_transformed_loopy_prg self d)
             calls)
  /\ r.1 <> Raise AssertionError.
Proof.
  revert acc w. induction ps as [ | [i part] ps IH ]; intros acc w; simpl.
  - split_and!; try done. exists []. by rewrite app_nil_r.
  - unfold bind.
    destruct (named_results_frame (var_name_to_result dp) (output_names part) ∅ w)
      as [Hw Hr].
    destruct (named_results (var_name_to_result dp) (output_names part) ∅ w)
      as [[d | e] w1]; simpl in Hw, Hr; subst w1.
    2: { split_and!; simpl; try done.
         - exists []. rewrite app_nil_r. split; [ done | constructor ].
         - intros [= ->]. by apply Hr. }
    unfold deref, external; simpl.
    destruct (dag_to_transformed_loopy_prg self (heap w !! caller_actx self) d
                (ext w)).1 as [r | code]; simpl.
    + match goal with |- context [compile_parts self dp ps ?a ?w1] =>
        destruct (IH a w1) as (Hh & Hwn & Hl & (calls & Ht & Hc) & Hne)
      end.
      simpl in *. split_and!; simpl; try done.
      exists (call_dag_to_transformed_loopy_prg self d :: calls).
      split.
      * rewrite Ht. by rewrite <- app_assoc.
      * constructor; [ by eexists | done ].
    + split_and!; simpl; try done.
      exists [call_dag_to_transformed_loopy_prg self d].
      split; [ done | ]. constructor; [ by eexists | constructor ].
Qed.

(** A compilation, step by step, on an array context that has a
    communicator and a base tag, when the two calls before the
    renumbering return. *)
Lemma dag_to_compiled_func_run (self : Caller) (d : NamedArrays)
    (inames onames : gmap Keys string) (tmpl : ArrayContainer) (w : World Ext)
    (o : Obj) (comm tag : Value) (d1 : NamedArrays)
    (p : DistributedGraphPartition) (e1 e2 : Ext) :
  heap w !! caller_actx self = Some o ->
  attrs o !! "mpi_communicator" = Some comm ->
  attrs o !! "mpi_base_tag" = Some tag ->
  deduplicate_data_wrappers d (ext w) = (Returns d1, e1) ->
  find_distributed_partition d1 e1 = (Returns p, e2) ->
  _dag_to_compiled_func self d inames onames tmpl w =
    let n := number_distributed_tags comm p tag e2 in
    let w3 h :=
      mkWorld h (warnings w) (logged w)
        (trace w ++
           [call_deduplicate_data_wrappers d;
            call_find_distributed_partition d1;
            call_number_distributed_tags comm p tag])
        n.2 in
    match n.1 with
    | Raises code => (Raise (ExternalError code), w3 (heap w))
    | Returns numbered =>
        let r :=
          compile_parts self numbered.1 (parts numbered.1) ∅
            (w3 (<[caller_actx self :=
                     mkObj (cls o) (<["mpi_base_tag" := numbered.2]> (attrs o))]>
                   (heap w))) in
        match r.1 with
        | Ok prgs =>
            (Ok (mkCompiled (caller_actx self) numbered.1 prgs inames onames tmpl),
             r.2)
        | Raise e => (Raise e, r.2)
        end
    end.
Proof.
  intros Ho Hc Ht H1 H2. unfold _dag_to_compiled_func.
  unfold bind at 1. unfold external at 1. rewrite H1. simpl.
  unfold bind at 1. unfold external at 1. simpl. rewrite H2. simpl.
  unfold bind at 1. unfold getattr at 1. simpl. rewrite Ho, Ht.
  unfold bind at 1. unfold getattr at 1. simpl. rewrite Ho, Hc.
  unfold bind at 1. unfold external at 1. simpl.
  rewrite <- !app_assoc. simpl.
  destruct (number_distributed_tags comm p tag e2).1 as [[p' t'] | code]; simpl.
  2: done.
  unfold bind at 1. unfold getattr at 1. simpl. rewrite Ho, Ht.
  rewrite py_eq_refl. simpl.
  unfold bind at 1. simpl.
  unfold bind at 1. unfold setattr at 1. simpl. rewrite Ho. simpl.
  unfold bind at 1.
  match goal with |- context [compile_parts self p' (parts p') ∅ ?w1] =>
    by destruct (compile_parts self p' (parts p') ∅ w1) as [[prgs | e] w2]
  end.
Qed.

(** What a compilation does up to and including the renumbering call. *)
Lemma dag_to_compiled_func_calls (self : Caller) (d : NamedArrays)
    (inames onames : gmap Keys string) (tmpl : ArrayContainer) (w : World Ext)
    (o : Obj) (comm tag : Value) (d1 : NamedArrays)
    (p : DistributedGraphPartition) (e1 e2 : Ext) :
  heap w !! caller_actx self = Some o ->
  attrs o !! "mpi_communicator" = Some comm ->
  attrs o !! "mpi_base_tag" = Some tag ->
  deduplicate_data_wrappers d (ext w) = (Returns d1, e1) ->
  find_distributed_partition d1 e1 = (Returns p, e2) ->
  exists rest,
    trace (_dag_to_compiled_func self d inames onames tmpl w).2 =
      trace w ++
        [call_deduplicate_data_wrappers d;
         call_find_distributed_partition d1;
         call_number_distributed_tags comm p tag] ++ rest
    /\ Forall (fun c => exists d, c = call_dag_to_transformed_loopy_prg self d)
         rest.
Proof.
  intros Ho Hc Ht H1 H2.
  rewrite (dag_to_compiled_func_run self d inames onames tmpl w o comm tag
             d1 p e1 e2) by done.
  simpl.
  destruct (number_distributed_tags comm p tag e2).1 as [[p' t'] | code]; simpl.
  2: { exists []. split; [ done | constructor ]. }
  match goal with |- context [compile_parts self p' (parts p') ∅ ?w1] =>
    destruct (compile_parts_frame self p' (parts p') ∅ w1)
      as (_ & _ & _ & (calls & Htr & Hcalls) & _);
    destruct (compile_parts self p' (parts p') ∅ w1) as [[prgs | e] w2]
  end; simpl in *; exists calls; rewrite Htr;
    (split; [ by rewrite <- !app_assoc | done ]).
Qed.

(** With the renumbering call returning, the new base tag is stored in the
    array context, and nothing else in the heap changes. *)
Lemma dag_to_compiled_func_updates_tag (self : Caller) (d : NamedArrays)
    (inames onames : gmap Keys string) (tmpl : ArrayContainer) (w : World Ext)
    (o : Obj) (comm tag : Value) (d1 : NamedArrays)
    (p p' : DistributedGraphPartition) (tag' : Value) (e1 e2 e3 : Ext) :
  heap w !! caller_actx self = Some o ->
  attrs o !! "mpi_communicator" = Some comm ->
  attrs o !! "mpi_base_tag" = Some tag ->
  deduplicate_data_wrappers d (ext w) = (Returns d1, e1) ->
  find_distributed_partition d1 e1 = (Returns p, e2) ->
  number_distributed_tags comm p tag e2 = (Returns (p', tag'), e3) ->
  let r := _dag_to_compiled_func self d inames onames tmpl w in
  heap r.2 =
    <[caller_actx self := mkObj (cls o) (<["mpi_base_tag" := tag']> (attrs o))]>
      (heap w)
  /\ (forall cf, r.1 = Ok cf ->
        actx cf = caller_actx self /\ distributed_partition cf = p').
Proof.
  intros Ho Hc Ht H1 H2 H3 r. subst r.
  rewrite (dag_to_compiled_func_run self d inames onames tmpl w o comm tag
             d1 p e1 e2) by done.
  rewrite H3. simpl.
  match goal with |- context [compile_parts self p' (parts p') ∅ ?w1] =>
    destruct (compile_parts_frame self p' (parts p') ∅ w1)
      as (Hh & _ & _ & _ & _);
    destruct (compile_parts self p' (parts p') ∅ w1) as [[prgs | e] w2]
  end; simpl in *; (split; [ done | ]); intros cf Hcf; by inversion Hcf.
Qed.

(** C3. A compilation calls [number_distributed_tags] with the
    communicator of the array context, the partition just found, and
    [base_tag] equal to the context's current [mpi_base_tag]; when that
    call returns, the context's [mpi_base_tag] is set to the returned base
    tag (and the compiled function holds the renumbered partition); hence
    the next compilation on the same context calls
    [number_distributed_tags] with that returned tag as its [base_tag]. *)
Theorem tags_numbered_from_base_tag (self : Caller) (d : NamedArrays)
    (inames onames : gmap Keys string) (tmpl : ArrayContainer) (w : World Ext)
    (o : Obj) (comm tag : Value) (d1 : NamedArrays)
    (p p' : DistributedGraphPartition) (tag' : Value) (e1 e2 e3 : Ext) :
  heap w !! caller_actx self = Some o ->
  attrs o !! "mpi_communicator" = Some comm ->
  attrs o !! "mpi_base_tag" = Some tag ->
  deduplicate_data_wrappers d (ext w) = (Returns d1, e1) ->
  find_distributed_partition d1 e1 = (Returns p, e2) ->
  number_distributed_tags comm p tag e2 = (Returns (p', tag'), e3) ->
  let r := _dag_to_compiled_func self d inames onames tmpl w in
  (exists rest,
     trace r.2 =
       trace w ++
         [call_deduplicate_data_wrappers d;
          call_find_distributed_partition d1;
          call_number_distributed_tags comm p tag] ++ rest
     /\ Forall (fun c => exists d, c = call_dag_to_transformed_loopy_prg self d)
          rest)
  /\ heap r.2 =
       <[caller_actx self :=
           mkObj (cls o) (<["mpi_base_tag" := tag']> (attrs o))]> (heap w)
  /\ (forall cf, r.1 = Ok cf ->
        actx cf = caller_actx self /\ distributed_partition cf = p')
  /\ (forall (self2 : Caller) (d2 : NamedArrays)
        (inames2 onames2 : gmap Keys string) (tmpl2 : ArrayContainer)
        (d3 : NamedArrays) (p2 : DistributedGraphPartition) (e4 e5 : Ext),
        caller_actx self2 = caller_actx self ->
        deduplicate_data_wrappers d2 (ext r.2) = (Returns d3, e4) ->
        find_distributed_partition d3 e4 = (Returns p2, e5) ->
        exists rest2,
          trace (_dag_to_compiled_func self2 d2 inames2 onames2 tmpl2 r.2).2 =
            trace r.2 ++
              [call_deduplicate_data_wrappers d2;
               call_find_distributed_partition d3;
               call_number_distributed_tags comm p2 tag'] ++ rest2
          /\ Forall
               (fun c => exists d, c = call_dag_to_transformed_loopy_prg self2 d)
               rest2).
Proof.
  intros Ho Hc Ht H1 H2 H3 r.
  destruct (dag_to_compiled_func_updates_tag self d inames onames tmpl w o comm
              tag d1 p p' tag' e1 e2 e3 Ho Hc Ht H1 H2 H3) as [Hheap Hcf].
  fold r in Hheap, Hcf.
  split_and!; try done.
  - by eapply dag_to_compiled_func_calls.
  - intros self2 d2 inames2 onames2 tmpl2 d3 p2 e4 e5 Hself H4 H5.
    eapply (dag_to_compiled_func_calls self2 d2 inames2 onames2 tmpl2 r.2
              (mkObj (cls o) (<["mpi_base_tag" := tag']> (attrs o)))).
    + rewrite Hheap, Hself. by eapply lookup_insert_same.
    + simpl. by rewrite lookup_insert_ne.
    + simpl. by rewrite lookup_insert_eq.
    + done.
    + done.
Qed.

(** In this embedding every value equals itself under [py_eq] and
    [number_distributed_tags] is not handed the array context, so here a
    compilation never raises [AssertionError]. (Base tags that do not
    equal themselves, and routines that may write to the context, are
    the subject of [AnyTag].) *)
Theorem base_tag_assertion_holds (self : Caller) (d : NamedArrays)
    (inames onames : gmap Keys string) (tmpl : ArrayContainer) (w : World Ext) :
  (_dag_to_compiled_func self d inames onames tmpl w).1 <> Raise AssertionError.
Proof.
  unfold _dag_to_compiled_func.
  unfold bind at 1. unfold external at 1.
  destruct (deduplicate_data_wrappers d (ext w)).1 as [d1 | code]; simpl;
    [ | done ].
  unfold bind at 1. unfold external at 1. simpl.
  destruct (find_distributed_partition d1 _).1 as [p | code]; simpl; [ | done ].
  unfold bind at 1. unfold getattr at 1. simpl.
  destruct (heap w !! caller_actx self) as [o | ] eqn:Ho; [ | done ].
  destruct (attrs o !! "mpi_base_tag") as [tag | ] eqn:Ht; [ | done ].
  unfold bind at 1. unfold getattr at 1. simpl. rewrite Ho.
  destruct (attrs o !! "mpi_communicator") as [comm | ] eqn:Hc; [ | done ].
  unfold bind at 1. unfold external at 1. simpl.
  destruct (number_distributed_tags comm p tag _).1 as [[p' t'] | code]; simpl;
    [ | done ].
  unfold bind at 1. unfold getattr at 1. simpl. rewrite Ho, Ht.
  rewrite py_eq_refl. simpl.
  unfold bind at 1. simpl.
  unfold bind at 1. unfold setattr at 1. simpl. rewrite Ho. simpl.
  unfold bind at 1.
  match goal with |- context [compile_parts self p' (parts p') ∅ ?w1] =>
    destruct (compile_parts_frame self p' (parts p') ∅ w1)
      as (_ & _ & _ & _ & Hne);
    destruct (compile_parts self p' (parts p') ∅ w1) as [[prgs | e] w2]
  end; simpl in *.
  - done.
  - intros [= ->]. by apply Hne.
Qed.

(** Whatever happens in a compilation, the only thing it changes in the
    heap is the [mpi_base_tag] of its array context. *)
Lemma dag_to_compiled_func_frame (self : Caller) (d : NamedArrays)
    (inames onames : gmap Keys string) (tmpl : ArrayContainer)
    (w w' : World Ext) (r : Result DistributedCompiledFunction) :
  _dag_to_compiled_func self d inames onames tmpl w = (r, w') ->
  forall (l : loc) (o : Obj),
    heap w !! l = Some o ->
    exists o', heap w' !! l = Some o' /\ same_but_base_tag o o'.
Proof.
  assert (forall (h : list Obj) (l : loc) (o : Obj),
            h !! l = Some o ->
            exists o', h !! l = Some o' /\ same_but_base_tag o o') as Hsame
    by (intros h l o Hl; exists o; by repeat split).
  unfold _dag_to_compiled_func.
  unfold bind at 1. unfold external at 1.
  destruct (deduplicate_data_wrappers d (ext w)).1 as [d1 | code]; simpl.
  2: { intros [= <- <-]. simpl. apply Hsame. }
  unfold bind at 1. unfold external at 1. simpl.
  destruct (find_distributed_partition d1 _).1 as [p | code]; simpl.
  2: { intros [= <- <-]. simpl. apply Hsame. }
  unfold bind at 1. unfold getattr at 1. simpl.
  destruct (heap w !! caller_actx self) as [oa | ] eqn:Ho.
  2: { intros [= <- <-]. simpl. apply Hsame. }
  destruct (attrs oa !! "mpi_base_tag") as [tag | ] eqn:Ht.
  2: { intros [= <- <-]. simpl. apply Hsame. }
  unfold bind at 1. unfold getattr at 1. simpl. rewrite Ho.
  destruct (attrs oa !! "mpi_communicator") as [comm | ] eqn:Hc.
  2: { intros [= <- <-]. simpl. apply Hsame. }
  unfold bind at 1. unfold external at 1. simpl.
  destruct (number_distributed_tags comm p tag _).1 as [[p' t'] | code]; simpl.
  2: { intros [= <- <-]. simpl. apply Hsame. }
  unfold bind at 1. unfold getattr at 1. simpl. rewrite Ho, Ht.
  rewrite py_eq_refl. simpl.
  unfold bind at 1. simpl.
  unfold bind at 1. unfold setattr at 1. simpl. rewrite Ho. simpl.
  unfold bind at 1.
  match goal with |- context [compile_parts self p' (parts p') ∅ ?w1] =>
    destruct (compile_parts_frame self p' (parts p') ∅ w1)
      as (Hh & _ & _ & _ & _);
    destruct (compile_parts self p' (parts p') ∅ w1) as [[prgs | e] w2]
  end; simpl in *; intros [= <- <-]; rewrite Hh; intros l o Hl.
  all: destruct (decide (l = caller_actx self)) as [-> | Hne];
    [ erewrite lookup_insert_same by done;
      eexists; split; [ done | ];
      assert (o = oa) as -> by congruence;
      split; [ done | ]; intros n Hn; simpl; by rewrite lookup_insert_ne
    | rewrite list_lookup_insert_ne by done; by apply Hsame ].
Qed.

(** The assertion is a real check: on a false condition it raises. *)
Lemma py_assert_false {E} (w : World E) :
  py_assert false w = (Raise AssertionError, w).
Proof. reflexivity. Qed.

End Compilation.

(** ** clone *)

Section Clone.
Context {Ext : Type} `{!Externals Ext}.

Lemma carried_lookup (o : Obj) (name : string) :
  (forall n, n ∈ carried (cls o) -> is_Some (attrs o !! n)) ->
  name ∈ carried (cls o) ->
  attrs o !! name = Some (default VNone (attrs o !! name)).
Proof.
  intros H Hn. destruct (H name Hn) as [v Hv]. by rewrite Hv.
Qed.

(** On an object of an MPI class that has the attributes [clone] reads,
    [clone] is the construction of an object of the same class from
    those attributes. *)
Lemma clone_run (l : loc) (o : Obj) (w : World Ext) :
  heap w !! l = Some o ->
  cls o ∈ mpi_classes ->
  (forall n, n ∈ carried (cls o) -> is_Some (attrs o !! n)) ->
  let get name := default VNone (attrs o !! name) in
  clone l w =
    instantiate (cls o)
      (ctor_args (cls o) (get "mpi_communicator") (get "queue")
         (get "mpi_base_tag") (Some (get "allocator"))
         (Some (get "_wait_event_queue_length"))
         (Some (get "_force_device_scalars"))) w.
Proof.
  intros Ho Hc Hattrs get.
  assert (forall n, n ∈ carried (cls o) -> attrs o !! n = Some (get n)) as Hget
    by (intros n Hn; by apply carried_lookup).
  unfold clone, bind, type_of. rewrite Ho.
  unfold mpi_classes in Hc. destruct o as [c a]. simpl in *.
  repeat (apply elem_of_cons in Hc as [-> | Hc]); [ .. | by inversion Hc ].
  all: unfold MPIPyOpenCLArrayContext_clone, MPIPytatoArrayContextBase_clone.
  all: unfold bind, type_of, getattr; rewrite Ho; simpl.
  all: repeat (rewrite ?Ho; simpl;
               rewrite Hget by (unfold carried; simpl; in_list); simpl).
  all: reflexivity.
Qed.

(** C9. Cloning an MPI-based array context that has the attributes
    [clone] reads returns a fresh object (a reference no existing object
    has) of the same class; every object that was in the heap, the
    original included, is left as it was; and, the meshmode constructor
    returning with its arguments stored under their attribute names, the
    clone has the original's [mpi_communicator], [queue] and [allocator],
    and its [mpi_base_tag] (pytato variant) or its
    [_wait_event_queue_length] and [_force_device_scalars] (eager
    variant). *)
Theorem clone_carries_over (l : loc) (o : Obj) (w : World Ext)
    (d : gmap string Value) :
  heap w !! l = Some o ->
  cls o ∈ mpi_classes ->
  (forall n, n ∈ carried (cls o) -> is_Some (attrs o !! n)) ->
  (base_init (meshmode_base (cls o)) (clone_base_args o) ∅ (ext w)).1
    = Returns d ->
  (forall n, n ∈ base_stored (cls o) -> d !! n = attrs o !! n) ->
  let r := clone l w in
  exists o',
    r.1 = Ok (length (heap w))
    /\ length (heap w) <> l
    /\ heap r.2 = heap w ++ [o']
    /\ heap r.2 !! l = Some o
    /\ cls o' = cls o
    /\ (forall n, n ∈ carried (cls o) -> attrs o' !! n = attrs o !! n).
Proof.
  intros Ho Hc Hattrs Hd Hstored r. subst r.
  rewrite (clone_run l o w Ho Hc Hattrs).
  pose proof (mpi_classes_public _ Hc) as Hpub.
  rewrite (instantiate_run (cls o)) by done.
  assert (base_args (cls o) (default VNone (attrs o !! "queue"))
            (Some (default VNone (attrs o !! "allocator")))
            (Some (default VNone (attrs o !! "_wait_event_queue_length")))
            (Some (default VNone (attrs o !! "_force_device_scalars")))
          = clone_base_args o) as ->.
  { unfold mpi_classes in Hc. unfold clone_base_args.
    repeat (apply elem_of_cons in Hc as [Hcls | Hc]); [ .. | by inversion Hc ];
      by rewrite Hcls. }
  unfold constructed. rewrite Hd. simpl.
  eexists. split_and!; try reflexivity.
  - apply lookup_lt_Some in Ho. lia.
  - by apply lookup_app_l_Some.
  - intros n Hn. simpl.
    pose proof (carried_lookup o n Hattrs Hn) as Hv.
    unfold mpi_classes in Hc. unfold carried in Hn. unfold base_stored in Hstored.
    repeat (apply elem_of_cons in Hc as [Hcls | Hc]); [ .. | by inversion Hc ];
      rewrite Hcls in *; simpl in *;
      repeat (apply elem_of_cons in Hn as [-> | Hn]);
      try (by inversion Hn);
      repeat first [ rewrite lookup_insert_eq
                   | rewrite lookup_insert_ne by done ];
      first [ done | apply Hstored; in_list ].
Qed.

End Clone.

(** ** Calling a compiled function *)

Lemma ArrayContainer_nested_ind (P : ArrayContainer -> Prop) :
  (forall a, P (Leaf a)) ->
  (forall items, Forall (fun kc => P kc.2) items -> P (Container items)) ->
  forall ary, P ary.
Proof.
  intros HL HC. fix IH 1. intros [a | items].
  - apply HL.
  - apply HC. induction items as [ | [k c] items IHitems ]; constructor.
    + apply IH.
    + apply IHitems.
Qed.

Lemma leaves_Container (keys : Keys) (items : list (Key * ArrayContainer)) :
  leaves keys (Container items) = leaves_items keys items.
Proof. reflexivity. Qed.

Lemma leaves_items_cons (keys : Keys) (k : Key) (c : ArrayContainer)
    (rest : list (Key * ArrayContainer)) :
  leaves_items keys ((k, c) :: rest)
    = leaves (keys ++ [k]) c ++ leaves_items keys rest.
Proof. reflexivity. Qed.

Lemma skeleton_Container (items : list (Key * ArrayContainer)) :
  skeleton (Container items) = Container (skeleton_items items).
Proof. reflexivity. Qed.

Lemma skeleton_items_cons (k : Key) (c : ArrayContainer)
    (rest : list (Key * ArrayContainer)) :
  skeleton_items ((k, c) :: rest) = (k, skeleton c) :: skeleton_items rest.
Proof. reflexivity. Qed.

Section Call.
Context {Ext : Type} `{!Externals Ext}.

Lemma rec_keyed_map_Container (f : Keys -> Value -> M (Ext:=Ext) Value) (keys : Keys)
    (items : list (Key * ArrayContainer)) :
  rec_keyed_map f keys (Container items) =
    (items' <- rec_keyed_map_items f keys items ;; ret (Container items')).
Proof. reflexivity. Qed.

Lemma rec_keyed_map_items_cons (f : Keys -> Value -> M (Ext:=Ext) Value) (keys : Keys)
    (k : Key) (c : ArrayContainer) (rest : list (Key * ArrayContainer)) :
  rec_keyed_map_items f keys ((k, c) :: rest) =
    (r <- rec_keyed_map f (keys ++ [k]) c ;;
     rs <- rec_keyed_map_items f keys rest ;;
     ret ((k, r) :: rs)).
Proof. reflexivity. Qed.

Lemma thaws_only_refl (l : loc) (w : World Ext) : thaws_only l w w.
Proof.
  unfold thaws_only. split_and!; try done.
  exists []. by rewrite app_nil_r.
Qed.

Lemma thaws_only_trans (l : loc) (w1 w2 w3 : World Ext) :
  thaws_only l w1 w2 -> thaws_only l w2 w3 -> thaws_only l w1 w3.
Proof.
  intros (Hh1 & Hw1 & Hl1 & c1 & Ht1 & Hc1) (Hh2 & Hw2 & Hl2 & c2 & Ht2 & Hc2).
  unfold thaws_only. split_and!; try congruence.
  exists (c1 ++ c2). split.
  - by rewrite Ht2, Ht1, app_assoc.
  - by apply Forall_app.
Qed.

Lemma to_output_template_run (self : DistributedCompiledFunction)
    (out : gmap string Value) (keys : Keys) (a0 : Value) (w : World Ext) :
  to_output_template self out keys a0 w =
    match output_id_to_name_in_program self !! keys with
    | None => (Raise KeyError, w)
    | Some name =>
        match out !! name with
        | None => (Raise KeyError, w)
        | Some a =>
            external (call_thaw (actx self) a) (thaw (heap w !! actx self) a) w
        end
    end.
Proof.
  unfold to_output_template, bind, getitem, deref.
  destruct (output_id_to_name_in_program self !! keys) as [name | ]; [ | done ].
  simpl. by destruct (out !! name) as [a | ].
Qed.

(** One leaf. *)
Lemma to_output_template_spec (self : DistributedCompiledFunction)
    (out : gmap string Value) (keys : Keys) (a0 : Value) (w w' : World Ext)
    (r : Result Value) :
  to_output_template self out keys a0 w = (r, w') ->
  thaws_only (actx self) w w'
  /\ (forall v, r = Ok v ->
        thawed_entry self (heap w !! actx self) out keys v).
Proof.
  rewrite to_output_template_run.
  destruct (output_id_to_name_in_program self !! keys) as [name | ] eqn:Hn.
  2: { intros [= <- <-]. split; [ apply thaws_only_refl | done ]. }
  destruct (out !! name) as [a | ] eqn:Ha.
  2: { intros [= <- <-]. split; [ apply thaws_only_refl | done ]. }
  unfold external.
  destruct (thaw (heap w !! actx self) a (ext w)).1 as [v | code] eqn:Ht;
    intros [= <- <-]; (split; [ | try done ]).
  - unfold thaws_only; simpl. split_and!; try done.
    exists [call_thaw (actx self) a]. split; [ done | ].
    constructor; [ by eexists | constructor ].
  - intros v' [= <-]. by exists name, a, (ext w).
  - unfold thaws_only; simpl. split_and!; try done.
    exists [call_thaw (actx self) a]. split; [ done | ].
    constructor; [ by eexists | constructor ].
Qed.

(** The traversal: the result has the structure of the template, and
    leaf by leaf the thawed entries. *)
Lemma rec_keyed_map_thaws (self : DistributedCompiledFunction)
    (out : gmap string Value) (ary : ArrayContainer) :
  forall (keys : Keys) (w w' : World Ext) (r : Result ArrayContainer),
    rec_keyed_map (to_output_template self out) keys ary w = (r, w') ->
    thaws_only (actx self) w w'
    /\ (forall res, r = Ok res ->
          skeleton res = skeleton ary
          /\ leaves_thawed self (heap w !! actx self) out
               (leaves keys res) (leaves keys ary)).
Proof.
  induction ary as [a | items IH] using ArrayContainer_nested_ind;
    intros keys w w' r.
  - simpl. unfold bind.
    destruct (to_output_template self out keys a w) as [[v | e] w1] eqn:Hrun;
      destruct (to_output_template_spec _ _ _ _ _ _ _ Hrun) as [Hf Hv];
      intros [= <- <-]; (split; [ done | try done ]).
    intros res [= <-]. split; [ done | ].
    simpl. constructor; [ | constructor ]. split; [ done | ]. by apply Hv.
  - rewrite rec_keyed_map_Container. unfold bind at 1.
    assert (forall (w w' : World Ext) (r : Result (list (Key * ArrayContainer))),
              rec_keyed_map_items (to_output_template self out) keys items w
                = (r, w') ->
              thaws_only (actx self) w w'
              /\ (forall res, r = Ok res ->
                    skeleton_items res = skeleton_items items
                    /\ leaves_thawed self (heap w !! actx self) out
                         (leaves_items keys res) (leaves_items keys items)))
      as Hitems.
    { clear w w' r.
      induction IH as [ | [k c] items Hc _ IHitems ]; intros w w' r.
      - simpl. intros [= <- <-]. split; [ apply thaws_only_refl | ].
        intros res [= <-]. split; [ done | constructor ].
      - rewrite rec_keyed_map_items_cons. unfold bind at 1.
        destruct (rec_keyed_map (to_output_template self out) (keys ++ [k]) c w)
          as [[r1 | e] w1] eqn:Hrun1;
          destruct (Hc _ _ _ _ Hrun1) as [Hf1 Hr1].
        2: { intros [= <- <-]. split; [ done | done ]. }
        unfold bind at 1.
        destruct (rec_keyed_map_items (to_output_template self out) keys items w1)
          as [[rs | e] w2] eqn:Hrun2;
          destruct (IHitems _ _ _ Hrun2) as [Hf2 Hr2];
          intros [= <- <-];
          (split; [ by eapply thaws_only_trans | try done ]).
        intros res [= <-].
        destruct (Hr1 r1 eq_refl) as [Hs1 Hl1].
        destruct (Hr2 rs eq_refl) as [Hs2 Hl2].
        rewrite !skeleton_items_cons, !leaves_items_cons, Hs1, Hs2.
        split; [ done | ].
        apply Forall2_app; [ done | ].
        destruct Hf1 as [Hh _]. by rewrite <- Hh. }
    destruct (rec_keyed_map_items (to_output_template self out) keys items w)
      as [[rs | e] w1] eqn:Hrun;
      destruct (Hitems _ _ _ Hrun) as [Hf Hr];
      intros [= <- <-]; (split; [ done | try done ]).
    intros res [= <-]. destruct (Hr rs eq_refl) as [Hs Hl].
    rewrite !skeleton_Container, !leaves_Container. by rewrite Hs.
Qed.

(** The traversal returns when every leaf has an entry and [thaw]
    returns. *)
Lemma rec_keyed_map_returns (self : DistributedCompiledFunction)
    (out : gmap string Value) (ary : ArrayContainer) :
  (forall o a (e : Ext), exists v, (thaw o a e).1 = Returns v) ->
  forall (keys : Keys) (w : World Ext),
    outputs_present self out (leaves keys ary) ->
    exists res w',
      rec_keyed_map (to_output_template self out) keys ary w = (Ok res, w').
Proof.
  intros Hthaw.
  induction ary as [a | items IH] using ArrayContainer_nested_ind;
    intros keys w Hpresent.
  - simpl. unfold bind. rewrite to_output_template_run.
    apply Forall_cons in Hpresent as [(name & a' & Hn & Ha) _]. simpl in Hn.
    rewrite Hn, Ha. unfold external.
    destruct (Hthaw (heap w !! actx self) a' (ext w)) as [v ->]. simpl.
    by eexists _, _.
  - rewrite rec_keyed_map_Container. unfold bind at 1.
    rewrite leaves_Container in Hpresent.
    assert (forall w,
              exists rs w',
                rec_keyed_map_items (to_output_template self out) keys items w
                  = (Ok rs, w')) as Hitems.
    { clear w. induction IH as [ | [k c] items Hc _ IHitems ]; intros w.
      - simpl. by eexists _, _.
      - rewrite leaves_items_cons in Hpresent.
        apply Forall_app in Hpresent as [Hp1 Hp2].
        rewrite rec_keyed_map_items_cons. unfold bind at 1.
        destruct (Hc (keys ++ [k]) w Hp1) as (r1 & w1 & Hrun1).
        simpl in Hrun1. rewrite Hrun1. unfold bind at 1.
        destruct (IHitems Hp2 w1) as (rs & w2 & ->).
        by eexists _, _. }
    destruct (Hitems w) as (rs & w1 & ->). by eexists _, _.
Qed.

(** A call, step by step, on an array context that has a queue, a
    communicator and an allocator, when [_args_to_cl_buffers] returns. *)
Lemma call_run (self : DistributedCompiledFunction)
    (arg_id_to_arg : gmap Keys Value) (w : World Ext) (o : Obj)
    (queue comm allocator : Value) (bufs : gmap string Value) (e1 : Ext) :
  heap w !! actx self = Some o ->
  attrs o !! "queue" = Some queue ->
  attrs o !! "mpi_communicator" = Some comm ->
  attrs o !! "allocator" = Some allocator ->
  args_to_cl_buffers (Some o) (input_id_to_name_in_program self) arg_id_to_arg
    (ext w) = (Returns bufs, e1) ->
  DistributedCompiledFunction_call self arg_id_to_arg w =
    let x :=
      execute_distributed_partition (distributed_partition self)
        (part_id_to_prg self) queue comm allocator bufs e1 in
    let w2 :=
      mkWorld (heap w) (warnings w) (logged w)
        (trace w ++
           [call_args_to_cl_buffers (actx self)
              (input_id_to_name_in_program self) arg_id_to_arg;
            call_execute_distributed_partition (distributed_partition self)
              (part_id_to_prg self) queue comm allocator bufs])
        x.2 in
    match x.1 with
    | Returns out_dict =>
        rec_keyed_map (to_output_template self out_dict) []
          (output_template self) w2
    | Raises code => (Raise (ExternalError code), w2)
    end.
Proof.
  intros Ho Hq Hc Hal Hbufs. unfold DistributedCompiledFunction_call.
  unfold bind at 1. unfold deref at 1. simpl. rewrite Ho.
  unfold bind at 1. unfold external at 1. rewrite Hbufs. simpl.
  unfold bind at 1. unfold getattr at 1. simpl. rewrite Ho, Hq.
  unfold bind at 1. unfold getattr at 1. simpl. rewrite Ho, Hc.
  unfold bind at 1. unfold getattr at 1. simpl. rewrite Ho, Hal.
  unfold bind at 1. unfold external at 1. simpl.
  rewrite <- !app_assoc. simpl.
  by destruct (execute_distributed_partition _ _ _ _ _ _ _).1.
Qed.

(** The calls a call of a compiled function makes, and what it leaves
    alone. *)
Lemma call_trace (self : DistributedCompiledFunction)
    (arg_id_to_arg : gmap Keys Value) (w : World Ext) (o : Obj)
    (queue comm allocator : Value) (bufs : gmap string Value) (e1 : Ext) :
  heap w !! actx self = Some o ->
  attrs o !! "queue" = Some queue ->
  attrs o !! "mpi_communicator" = Some comm ->
  attrs o !! "allocator" = Some allocator ->
  args_to_cl_buffers (Some o) (input_id_to_name_in_program self) arg_id_to_arg
    (ext w) = (Returns bufs, e1) ->
  let r := DistributedCompiledFunction_call self arg_id_to_arg w in
  heap r.2 = heap w
  /\ exists calls,
       trace r.2 =
         trace w ++
           [call_args_to_cl_buffers (actx self)
              (input_id_to_name_in_program self) arg_id_to_arg;
            call_execute_distributed_partition (distributed_partition self)
              (part_id_to_prg self) queue comm allocator bufs] ++ calls
       /\ Forall (is_thaw_call (actx self)) calls.
Proof.
  intros Ho Hq Hc Hal Hbufs r. subst r.
  rewrite (call_run self arg_id_to_arg w o queue comm allocator bufs e1)
    by done.
  simpl.
  destruct (execute_distributed_partition _ _ _ _ _ _ _).1 as [out | code].
  2: { simpl. split; [ done | ]. exists []. split; [ done | constructor ]. }
  match goal with |- context [rec_keyed_map ?f [] ?t ?w2] =>
    destruct (rec_keyed_map f [] t w2) as [r w'] eqn:Hrun
  end.
  destruct (rec_keyed_map_thaws _ _ _ _ _ _ _ Hrun)
    as [(Hh & _ & _ & calls & Ht & Hcalls) _].
  simpl in *. split; [ done | ].
  exists calls. split; [ | done ]. by rewrite Ht, <- app_assoc.
Qed.

(** C10. A call of a compiled function, on an array context that has a
    queue, a communicator and an allocator and with the two library calls
    returning, gives - whenever it returns - a container with the
    structure and keys of [output_template] whose leaf under the keys [k]
    is what [thaw] returned for the entry of the result dictionary of
    [execute_distributed_partition] under
    [output_id_to_name_in_program[k]]; it does return when every leaf of
    the template has such an entry and [thaw] returns; and it assigns
    nothing: the compiled function is only read and the heap is as
    before. *)
Theorem compiled_call_fills_template (self : DistributedCompiledFunction)
    (arg_id_to_arg : gmap Keys Value) (w : World Ext) (o : Obj)
    (queue comm allocator : Value) (bufs out_dict : gmap string Value)
    (e1 e2 : Ext) :
  heap w !! actx self = Some o ->
  attrs o !! "queue" = Some queue ->
  attrs o !! "mpi_communicator" = Some comm ->
  attrs o !! "allocator" = Some allocator ->
  args_to_cl_buffers (Some o) (input_id_to_name_in_program self) arg_id_to_arg
    (ext w) = (Returns bufs, e1) ->
  execute_distributed_partition (distributed_partition self)
    (part_id_to_prg self) queue comm allocator bufs e1
    = (Returns out_dict, e2) ->
  let r := DistributedCompiledFunction_call self arg_id_to_arg w in
  (forall res, r.1 = Ok res ->
     skeleton res = skeleton (output_template self)
     /\ leaves_thawed self (Some o) out_dict
          (leaves [] res) (leaves [] (output_template self)))
  /\ (outputs_present self out_dict (leaves [] (output_template self)) ->
      (forall o' a (e : Ext), exists v, (thaw o' a e).1 = Returns v) ->
      exists res, r.1 = Ok res)
  /\ heap r.2 = heap w.
Proof.
  intros Ho Hq Hc Hal Hbufs Hout r.
  destruct (call_trace self arg_id_to_arg w o queue comm allocator bufs e1
              Ho Hq Hc Hal Hbufs) as [Hheap _].
  fold r in Hheap. split_and!; [ | | done ].
  - subst r.
    rewrite (call_run self arg_id_to_arg w o queue comm allocator bufs e1)
      by done.
    rewrite Hout. simpl. intros res Hres.
    match type of Hres with (rec_keyed_map ?f [] ?t ?w2).1 = _ =>
      destruct (rec_keyed_map f [] t w2) as [r w'] eqn:Hrun
    end.
    destruct (rec_keyed_map_thaws _ _ _ _ _ _ _ Hrun) as [_ Hleaves].
    simpl in Hleaves. rewrite Ho in Hleaves. by apply Hleaves.
  - intros Hpresent Hthaw. subst r.
    rewrite (call_run self arg_id_to_arg w o queue comm allocator bufs e1)
      by done.
    rewrite Hout. simpl.
    match goal with |- context [rec_keyed_map ?f [] ?t ?w2] =>
      destruct (rec_keyed_map_returns self out_dict t Hthaw [] w2 Hpresent)
        as (res & w' & ->)
    end.
    by exists res.
Qed.

End Call.

(** ** The communicator, the queue and the allocator *)

Section Forwarding.
Context {Ext : Type} `{!Externals Ext}.

Lemma same_but_base_tag_trans (o1 o2 o3 : Obj) :
  same_but_base_tag o1 o2 -> same_but_base_tag o2 o3 -> same_but_base_tag o1 o3.
Proof.
  intros [Hc1 Ha1] [Hc2 Ha2]. split; [ congruence | ].
  intros n Hn. by rewrite Ha2, Ha1.
Qed.

(** C6. Constructing an MPI-based array context passes the queue and the
    allocator on to the meshmode constructor as they are and stores the
    communicator itself, so that (the meshmode constructor returning with
    queue and allocator stored under their names) the new object holds
    the three objects it was given. A compilation on the context changes
    nothing of the object but [mpi_base_tag]. And a call of a compiled
    function on the context changes nothing in the heap and hands
    [execute_distributed_partition] exactly that queue, that communicator
    and that allocator; the module makes no other call that involves
    them. *)
Theorem mpi_objects_forwarded (c : Class) (comm queue tag : Value)
    (al wl fd : option Value) (w : World Ext) (d : gmap string Value) :
  c ∈ mpi_classes ->
  (base_init (meshmode_base c) (base_args c queue al wl fd) ∅ (ext w)).1
    = Returns d ->
  d !! "queue" = Some queue ->
  d !! "allocator" = Some (default VNone al) ->
  let l := length (heap w) in
  let r := instantiate c (ctor_args c comm queue tag al wl fd) w in
  exists o,
    r.1 = Ok l
    /\ heap r.2 = heap w ++ [o]
    /\ trace r.2
       = trace w ++
           [call_base_init (meshmode_base c) l (base_args c queue al wl fd)]
    /\ attrs o !! "mpi_communicator" = Some comm
    /\ attrs o !! "queue" = Some queue
    /\ attrs o !! "allocator" = Some (default VNone al)
    /\ (forall (self : Caller) (dict : NamedArrays)
          (inames onames : gmap Keys string) (tmpl : ArrayContainer)
          (w1 : World Ext) (o1 : Obj),
          heap w1 !! l = Some o1 ->
          same_but_base_tag o o1 ->
          exists o2,
            heap (_dag_to_compiled_func self dict inames onames tmpl w1).2 !! l
              = Some o2
            /\ same_but_base_tag o o2)
    /\ (forall (self : DistributedCompiledFunction)
          (arg_id_to_arg : gmap Keys Value) (w1 : World Ext) (o1 : Obj)
          (bufs : gmap string Value) (e1 : Ext),
          actx self = l ->
          heap w1 !! l = Some o1 ->
          same_but_base_tag o o1 ->
          args_to_cl_buffers (Some o1) (input_id_to_name_in_program self)
            arg_id_to_arg (ext w1) = (Returns bufs, e1) ->
          let r1 := DistributedCompiledFunction_call self arg_id_to_arg w1 in
          heap r1.2 = heap w1
          /\ exists calls,
               trace r1.2 =
                 trace w1 ++
                   [call_args_to_cl_buffers l
                      (input_id_to_name_in_program self) arg_id_to_arg;
                    call_execute_distributed_partition
                      (distributed_partition self) (part_id_to_prg self)
                      queue comm (default VNone al) bufs] ++ calls
               /\ Forall (is_thaw_call l) calls).
Proof.
  intros Hc Hd Hq Hal l r. subst r.
  rewrite (instantiate_run c) by (by apply mpi_classes_public).
  rewrite constructed_trace.
  unfold constructed. rewrite Hd. simpl.
  set (o := mkObj c (own_attrs c comm tag d)).
  assert (attrs o !! "mpi_communicator" = Some comm
          /\ attrs o !! "queue" = Some queue
          /\ attrs o !! "allocator" = Some (default VNone al))
    as (Hoc & Hoq & Hoa).
  { unfold mpi_classes in Hc. subst o. simpl.
    repeat (apply elem_of_cons in Hc as [-> | Hc]); [ .. | by inversion Hc ];
      simpl; split_and!;
      repeat first [ rewrite lookup_insert_eq
                   | rewrite lookup_insert_ne by done ];
      done. }
  exists o. split_and!; try done.
  - intros self dict inames onames tmpl w1 o1 Ho1 Hsame.
    destruct (_dag_to_compiled_func self dict inames onames tmpl w1)
      as [r1 w2] eqn:Hrun.
    destruct (dag_to_compiled_func_frame _ _ _ _ _ _ _ _ Hrun l o1 Ho1)
      as (o2 & Ho2 & Hsame2).
    exists o2. split; [ done | ]. by eapply same_but_base_tag_trans.
  - intros self arg_id_to_arg w1 o1 bufs e1 Hself Ho1 [_ Hsame] Hbufs.
    rewrite <- Hself in *.
    apply call_trace with (o := o1) (e1 := e1); try done.
    + by rewrite Hsame.
    + by rewrite Hsame.
    + by rewrite Hsame.
Qed.

End Forwarding.

(** ** Warnings about the library branches, continued *)

Section Branches.
Context {Ext : Type} `{!Externals Ext}.

Lemma msg_branch_mismatch_not_allocator (c : Class) (al : option Value) :
  msg_branch_mismatch ∉ allocator_warnings c al.
Proof.
  unfold allocator_warnings. destruct (is_None (default VNone al)).
  - intros H. apply elem_of_replicate in H as [H _]. discriminate H.
  - apply not_elem_of_nil.
Qed.

Lemma msg_no_device_parallel_not_allocator (c : Class) (al : option Value) :
  msg_no_device_parallel ∉ allocator_warnings c al.
Proof.
  unfold allocator_warnings. destruct (is_None (default VNone al)).
  - intros H. apply elem_of_replicate in H as [H _]. discriminate H.
  - apply not_elem_of_nil.
Qed.

(** C5, as amended. Take any mismatched pair of branches: meshmode with
    the class and loopy without the function, or the other way round.
    The import returns (it does not raise) and sets
    [_HAVE_SINGLE_GRID_WORK_BALANCING] to false; it issues the mismatch
    warning when it is meshmode that has the class, and no warning at
    all in the reverse case. With the flag false, every call of
    [get_reasonable_array_context_class] returns, with the
    no-device-parallel warning exactly when it is a lazy one. Constructing
    an array context issues no warning but the ones about the allocator,
    so neither of these two. *)
Theorem mismatched_branches_surface_at_import (env : ImportEnv) (w : World Ext) :
  branches_differ env = true ->
  import_module env w =
    (Ok false,
     mkWorld (heap w)
       (warnings w ++
          (if meshmode_has_single_grid env then [msg_branch_mismatch] else []))
       (logged w) (trace w) (ext w))
  /\ (forall (lazy distributed : bool) (w1 : World Ext),
        let r := get_reasonable_array_context_class false lazy distributed w1 in
        is_Ok r.1 = true
        /\ warnings r.2
           = warnings w1 ++ (if lazy then [msg_no_device_parallel] else []))
  /\ (forall (c : Class) (comm queue tag : Value) (al wl fd : option Value)
        (w1 : World Ext),
        c ∈ public_classes ->
        let r := instantiate c (ctor_args c comm queue tag al wl fd) w1 in
        warnings r.2 = warnings w1 ++ allocator_warnings c al
        /\ (msg_branch_mismatch ∉ allocator_warnings c al)
        /\ (msg_no_device_parallel ∉ allocator_warnings c al)).
Proof.
  intros Hdiffer. split_and!.
  - rewrite import_module_run.
    destruct env as [[] []]; try discriminate Hdiffer; reflexivity.
  - intros lazy distributed w1.
    destruct lazy, distributed; simpl; by rewrite ?app_nil_r.
  - intros c comm queue tag al wl fd w1 Hc r. subst r.
    rewrite (instantiate_run c) by done. rewrite constructed_warnings.
    split_and!;
      [ done | apply msg_branch_mismatch_not_allocator
      | apply msg_no_device_parallel_not_allocator ].
Qed.

End Branches.

(** * Concrete runs *)

Import Sample.

(** C5 as stated fails: with mismatched branches the warning is issued by
    the import, and a construction that follows issues none. *)
Lemma branch_mismatch_not_warned_at_construction :
  let env := mkEnv true false in
  branches_mismatched env = true
  /\ warned_during msg_branch_mismatch (import_module env) w0
  /\ ~ warned_during msg_branch_mismatch
         (instantiate PyOpenCLArrayContext
            (args_pyopencl queue0 (Some alloc0) None None))
         (import_module env w0).2
  /\ ~ warned_during msg_branch_mismatch
         (instantiate MPIBasePytatoPyOpenCLArrayContext
            (args_mpi_pytato comm0 queue0 (VInt 5) None))
         (import_module env w0).2.
Proof.
  unfold warned_during. split_and!.
  - reflexivity.
  - simpl. in_list.
  - simpl. apply not_elem_of_nil.
  - simpl. intros H.
    repeat (apply elem_of_cons in H as [H | H]; [ discriminate H | ]).
    by apply not_elem_of_nil in H.
Qed.

(** A loopy with the function next to a meshmode without the class: the
    import sets the flag to false and says nothing. *)
Lemma mismatched_branches_surface_at_import_witness :
  branches_differ (mkEnv false true) = true
  /\ import_module (mkEnv false true) w0 = (Ok false, w0).
Proof.
  assert (branches_differ (mkEnv false true) = true) as Hdiffer
    by reflexivity.
  split; [ exact Hdiffer | ].
  destruct (mismatched_branches_surface_at_import (mkEnv false true) w0 Hdiffer)
    as [Himport _].
  exact Himport.
Defined.

(** C4 at work: a lazy MPI context built without an allocator, twice
    warned, and built all the same. *)
Lemma missing_allocator_warns_witness :
  let r := instantiate MPIBasePytatoPyOpenCLArrayContext
             (args_mpi_pytato comm0 queue0 (VInt 5) None) w0 in
  r.1 = Ok 0%nat
  /\ warnings r.2 = [msg_no_allocator; msg_no_allocator].
Proof.
  assert (MPIBasePytatoPyOpenCLArrayContext ∈ public_classes) as H1
    by (unfold public_classes; in_list).
  assert ((base_init (meshmode_base MPIBasePytatoPyOpenCLArrayContext)
             (base_args MPIBasePytatoPyOpenCLArrayContext queue0 None None None)
             ∅ (ext w0)).1
          = Returns (<["allocator" := VNone]> (<["queue" := queue0]> ∅))) as H2
    by reflexivity.
  destruct (missing_allocator_warns MPIBasePytatoPyOpenCLArrayContext
              comm0 queue0 (VInt 5) None None None w0 _ H1 H2)
    as (Hok & Hnone & _).
  split; [ exact Hok | ].
  destruct (Hnone (or_introl eq_refl)) as [_ Hw]. exact Hw.
Defined.

(** C3 at work: compiling on the context with base tag 5 and a partition
    of one part calls the renumbering with base tag 5 and leaves base
    tag 6 in the context. *)
Lemma tags_numbered_from_base_tag_witness :
  let r := _dag_to_compiled_func caller0 dict0 ∅ ∅ (Leaf VNone) w_lazy in
  exists o rest,
    trace r.2 =
      trace w_lazy ++
        [call_deduplicate_data_wrappers dict0;
         call_find_distributed_partition dict0;
         call_number_distributed_tags comm0 partition0 (VInt 5)] ++ rest
    /\ heap r.2 = [o]
    /\ attrs o !! "mpi_base_tag" = Some (VInt 6).
Proof.
  set (o := mkObj MPIBasePytatoPyOpenCLArrayContext
              (<["mpi_base_tag" := VInt 5]>
                 (<["mpi_communicator" := comm0]>
                    (<["allocator" := alloc0]> (<["queue" := queue0]> ∅))))).
  assert (heap w_lazy !! caller_actx caller0 = Some o) as H1
    by (vm_compute; reflexivity).
  assert (attrs o !! "mpi_communicator" = Some comm0) as H2
    by (vm_compute; reflexivity).
  assert (attrs o !! "mpi_base_tag" = Some (VInt 5)) as H3
    by (vm_compute; reflexivity).
  assert (deduplicate_data_wrappers dict0 (ext w_lazy) = (Returns dict0, 2%nat))
    as H4 by (vm_compute; reflexivity).
  assert (find_distributed_partition dict0 2%nat = (Returns partition0, 3%nat))
    as H5 by (vm_compute; reflexivity).
  assert (number_distributed_tags comm0 partition0 (VInt 5) 3%nat
          = (Returns (partition0, VInt 6), 4%nat)) as H6
    by (vm_compute; reflexivity).
  destruct (tags_numbered_from_base_tag caller0 dict0 ∅ ∅ (Leaf VNone) w_lazy
              o comm0 (VInt 5) dict0 partition0 partition0 (VInt 6)
              2%nat 3%nat 4%nat H1 H2 H3 H4 H5 H6)
    as ((rest & Htrace & _) & Hheap & _).
  eexists _, rest. split_and!.
  - exact Htrace.
  - rewrite Hheap. vm_compute. reflexivity.
  - vm_compute. reflexivity.
Defined.

(** C6 at work: the lazy MPI context built from [comm0], [queue0] and
    [alloc0] holds exactly these. *)
Lemma mpi_objects_forwarded_witness :
  let r := instantiate MPIBasePytatoPyOpenCLArrayContext
             (args_mpi_pytato comm0 queue0 (VInt 5) (Some alloc0)) w0 in
  exists o,
    r.1 = Ok 0%nat
    /\ heap r.2 = [o]
    /\ attrs o !! "mpi_communicator" = Some comm0
    /\ attrs o !! "queue" = Some queue0
    /\ attrs o !! "allocator" = Some alloc0.
Proof.
  set (d := <["allocator" := alloc0]> (<["queue" := queue0]> ∅)
         : gmap string Value).
  assert (MPIBasePytatoPyOpenCLArrayContext ∈ mpi_classes) as H1
    by (unfold mpi_classes; in_list).
  assert ((base_init (meshmode_base MPIBasePytatoPyOpenCLArrayContext)
             (base_args MPIBasePytatoPyOpenCLArrayContext queue0 (Some alloc0)
                None None) ∅ (ext w0)).1 = Returns d) as H2
    by reflexivity.
  assert (d !! "queue" = Some queue0) as H3 by (vm_compute; reflexivity).
  assert (d !! "allocator" = Some (default VNone (Some alloc0))) as H4
    by (vm_compute; reflexivity).
  destruct (mpi_objects_forwarded MPIBasePytatoPyOpenCLArrayContext
              comm0 queue0 (VInt 5) (Some alloc0) None None w0 d H1 H2 H3 H4)
    as (o & Hok & Hheap & _ & Hc & Hq & Ha & _).
  exists o. split_and!.
  - exact Hok.
  - exact Hheap.
  - exact Hc.
  - exact Hq.
  - exact Ha.
Defined.

(** C9 at work: cloning the eager MPI context (built without a
    [wait_event_queue_length], so holding the default) gives a second
    object with the same attributes. *)
Lemma clone_carries_over_witness :
  let r := clone 0%nat w_eager in
  exists o o',
    heap w_eager = [o]
    /\ r.1 = Ok 1%nat
    /\ heap r.2 = [o; o']
    /\ cls o' = MPIPyOpenCLArrayContext
    /\ attrs o' !! "_wait_event_queue_length" = Some (VInt 10).
Proof.
  set (d := <["_force_device_scalars" := VBool false]>
              (<["_wait_event_queue_length" := VInt 10]>
                 (<["allocator" := alloc0]> (<["queue" := queue0]> ∅)))
         : gmap string Value).
  set (o := mkObj MPIPyOpenCLArrayContext (<["mpi_communicator" := comm0]> d)).
  assert (heap w_eager = [o]) as Hw by (vm_compute; reflexivity).
  assert (heap w_eager !! 0%nat = Some o) as H1 by (by rewrite Hw).
  assert (cls o ∈ mpi_classes) as H2 by (unfold mpi_classes; in_list).
  assert (forall n, n ∈ carried (cls o) -> is_Some (attrs o !! n)) as H3.
  { intros n Hn. unfold carried in Hn. simpl in Hn.
    repeat (apply elem_of_cons in Hn as [-> | Hn]);
      [ by eexists .. | by inversion Hn ]. }
  assert ((base_init (meshmode_base (cls o)) (clone_base_args o) ∅
             (ext w_eager)).1 = Returns d) as H4
    by (vm_compute; reflexivity).
  assert (forall n, n ∈ base_stored (cls o) -> d !! n = attrs o !! n) as H5.
  { intros n Hn. unfold base_stored in Hn. simpl in Hn.
    repeat (apply elem_of_cons in Hn as [-> | Hn]);
      [ vm_compute; reflexivity .. | by inversion Hn ]. }
  destruct (clone_carries_over 0%nat o w_eager d H1 H2 H3 H4 H5)
    as (o' & Hok & _ & Hheap & _ & Hcls & Hattrs).
  exists o, o'. split_and!.
  - exact Hw.
  - rewrite Hok, Hw. reflexivity.
  - rewrite Hheap, Hw. reflexivity.
  - exact Hcls.
  - rewrite Hattrs; [ vm_compute; reflexivity | ].
    unfold carried. simpl. in_list.
Defined.

(** C10 at work: calling the compiled function with two outputs returns
    a container with the structure of the template. *)
Lemma compiled_call_fills_template_witness :
  let r := DistributedCompiledFunction_call compiled0 ∅ w_lazy in
  exists res,
    r.1 = Ok res
    /\ skeleton res = skeleton template0
    /\ heap r.2 = heap w_lazy.
Proof.
  set (o := mkObj MPIBasePytatoPyOpenCLArrayContext
              (<["mpi_base_tag" := VInt 5]>
                 (<["mpi_communicator" := comm0]>
                    (<["allocator" := alloc0]> (<["queue" := queue0]> ∅))))).
  assert (heap w_lazy !! actx compiled0 = Some o) as H1
    by (vm_compute; reflexivity).
  assert (attrs o !! "queue" = Some queue0) as H2 by (vm_compute; reflexivity).
  assert (attrs o !! "mpi_communicator" = Some comm0) as H3
    by (vm_compute; reflexivity).
  assert (attrs o !! "allocator" = Some alloc0) as H4
    by (vm_compute; reflexivity).
  assert (args_to_cl_buffers (Some o) (input_id_to_name_in_program compiled0)
            ∅ (ext w_lazy) = (Returns ∅, 2%nat)) as H5
    by (vm_compute; reflexivity).
  assert (execute_distributed_partition (distributed_partition compiled0)
            (part_id_to_prg compiled0) queue0 comm0 alloc0 ∅ 2%nat
          = (Returns dict0, 3%nat)) as H6
    by (vm_compute; reflexivity).
  destruct (compiled_call_fills_template compiled0 ∅ w_lazy o queue0 comm0
              alloc0 ∅ dict0 2%nat 3%nat H1 H2 H3 H4 H5 H6)
    as (Hshape & Hreturns & Hheap).
  destruct Hreturns as [res Hres].
  - unfold outputs_present. simpl.
    repeat constructor; exists "x", (VRef 50); split; vm_compute; reflexivity.
  - intros o' a e. exists a. reflexivity.
  - exists res. split_and!.
    + exact Hres.
    + exact (proj1 (Hshape res Hres)).
    + exact Hheap.
Defined.

(** * Further properties *)

(** ** Method resolution *)

(** The linearisation table is Python's C3 linearisation of the class
    statements. *)
Lemma mro_is_c3 (c : Class) : linearise 4 c = Some (mro c).
Proof. destruct c; vm_compute; reflexivity. Qed.

(** ** Class selection, the whole function *)

(** The function always returns: [actx_class] is bound on every path. It
    touches nothing but the warnings and the log, and it logs one record,
    which names the class it returns, the two flags, and whether the
    class is device-parallel. *)
Theorem selection_returns_and_logs {Ext} (have lazy distributed : bool)
    (w : World Ext) :
  exists c,
    get_reasonable_array_context_class have lazy distributed w =
      (Ok c,
       mkWorld (heap w)
         (warnings w ++
            (if lazy && negb have then [msg_no_device_parallel] else []))
         (logged w ++ [mkLog c lazy distributed (have || negb lazy)])
         (trace w) (ext w)).
Proof.
  destruct have, lazy, distributed; eexists; cbv [get_reasonable_array_context_class
    bind ret warn logger_info negb andb orb]; simpl; by rewrite ?app_nil_r.
Qed.

(** The class returned is a pytato class exactly when [lazy] is set; it
    derives from [MPIBasedArrayContext] whenever [distributed] is set;
    and in the eager case it does so only then. *)
Theorem selection_respects_flags {Ext} (have lazy distributed : bool)
    (w : World Ext) (c : Class) :
  (get_reasonable_array_context_class have lazy distributed w).1 = Ok c ->
  is_lazy_class c = lazy
  /\ (distributed = true -> is_mpi_based c = true)
  /\ (lazy = false -> is_mpi_based c = distributed).
Proof.
  destruct have, lazy, distributed; intros [= <-]; by split_and!.
Qed.

Lemma selection_respects_flags_witness :
  is_lazy_class MPIPyOpenCLArrayContext = false
  /\ (true = true -> is_mpi_based MPIPyOpenCLArrayContext = true)
  /\ (false = false -> is_mpi_based MPIPyOpenCLArrayContext = true).
Proof.
  apply (selection_respects_flags (Ext:=nat) true false true w0).
  reflexivity.
Defined.

(** For the lazy, distributed case the function returns the class the
    module exports as [MPIPytatoArrayContext]: both follow
    [_HAVE_SINGLE_GRID_WORK_BALANCING] the same way. *)
Theorem lazy_selection_is_exported_alias {Ext} (have : bool) (w : World Ext) :
  (get_reasonable_array_context_class have true true w).1
    = Ok (MPIPytatoArrayContext have).
Proof. by destruct have. Qed.

(** Import, then selection with the flag the import set: the
    single-grid work-balancing class is selected exactly when both
    branches are there; otherwise the fallback is selected and the call
    warns. *)
Theorem import_then_lazy_selection {Ext} (env : ImportEnv) (w : World Ext) :
  let both := meshmode_has_single_grid env && loopy_has_get_idis env in
  let r := (have <- import_module env ;;
            get_reasonable_array_context_class have true true) w in
  r.1 = Ok (if both then MPISingleGridWorkBalancingPytatoArrayContext
            else MPIBasePytatoPyOpenCLArrayContext)
  /\ warnings r.2 =
       warnings w ++
         (if branches_mismatched env then [msg_branch_mismatch] else []) ++
         (if both then [] else [msg_no_device_parallel]).
Proof.
  destruct env as [[] []]; simpl; split; try reflexivity;
    by rewrite <- ?app_assoc, ?app_nil_r.
Qed.

(** ** Construction, the failing cases *)

Section ConstructionErrors.
Context {Ext : Type} `{!Externals Ext}.

(** [MPIPytatoArrayContextBase] is a mix-in: instantiated on its own, its
    [super().__init__(queue, allocator)] reaches [object.__init__], which
    takes no arguments. The construction raises [TypeError] after the
    allocator check, without calling into meshmode and without setting
    an attribute. *)
Theorem mixin_not_instantiable (comm queue tag : Value) (al : option Value)
    (w : World Ext) :
  instantiate MPIPytatoArrayContextBase (args_mpi_pytato comm queue tag al) w =
    (Raise TypeError,
     mkWorld (heap w ++ [mkObj MPIPytatoArrayContextBase ∅])
       (warnings w ++
          (if is_None (default VNone al) then [msg_no_allocator] else []))
       (logged w) (trace w) (ext w)).
Proof.
  unfold instantiate. simpl.
  unfold MPIPytatoArrayContextBase_init, super_init_meshmode.
  unfold bind, alloc, type_of, ret, raise, warn; simpl.
  destruct (is_None (default VNone al)); simpl;
    rewrite ?lookup_fresh; simpl; rewrite ?lookup_fresh; simpl;
    by rewrite ?app_nil_r.
Qed.

(** When the meshmode constructor raises, the construction raises the
    same exception; the allocator warning has been issued by then, and
    the attributes of the MPI classes are never set. *)
Theorem construction_failure_propagates (c : Class) (comm queue tag : Value)
    (al wl fd : option Value) (w : World Ext) (code : positive) :
  c ∈ public_classes ->
  (base_init (meshmode_base c) (base_args c queue al wl fd) ∅ (ext w)).1
    = Raises code ->
  let r := instantiate c (ctor_args c comm queue tag al wl fd) w in
  r.1 = Raise (ExternalError code)
  /\ warnings r.2 = warnings w ++ allocator_warnings c al
  /\ heap r.2 = heap w ++ [mkObj c ∅].
Proof.
  intros Hc Hraise r. subst r. rewrite (instantiate_run c) by done.
  unfold constructed. by rewrite Hraise.
Qed.

End ConstructionErrors.

(** ** Distributed compilation, the loop and the failing cases *)

Section CompilationDetails.
Context {Ext : Type} `{!Externals Ext}.

(** The dict comprehension over complete output names gives the
    partition's results restricted to these names. *)
Lemma named_results_lookup (m : gmap string Value) (names : list string) :
  Forall (fun name => is_Some (m !! name)) names ->
  forall (acc : NamedArrays) (w : World Ext),
    exists d,
      named_results m names acc w = (Ok d, w)
      /\ forall n, d !! n = if decide (n ∈ names) then m !! n else acc !! n.
Proof.
  induction 1 as [ | n0 names [v Hv] _ IH ]; intros acc w; simpl.
  - exists acc. split; [ done | ]. intros n.
    by destruct (decide (n ∈ [])) as [Hin | ]; [ inversion Hin | ].
  - unfold bind, getitem. rewrite Hv. simpl.
    destruct (IH (<[n0 := v]> acc) w) as (d & Hrun & Hd).
    exists d. split; [ done | ]. intros n. rewrite Hd.
    destruct (decide (n ∈ names)) as [Hin | Hnin].
    + rewrite decide_True; [ done | by right ].
    + destruct (decide (n = n0)) as [-> | Hne].
      * rewrite decide_True by left. by rewrite lookup_insert_eq.
      * rewrite decide_False.
        -- by rewrite lookup_insert_ne.
        -- intros Hc. apply elem_of_cons in Hc as [ | ]; done.
Qed.

Lemma named_results_complete (dp : DistributedGraphPartition) (part : Part)
    (w : World Ext) :
  part_complete dp part ->
  named_results (var_name_to_result dp) (output_names part) ∅ w
    = (Ok (part_outputs dp part), w).
Proof.
  intros Hc.
  destruct (named_results_lookup _ _ Hc ∅ w) as (d & -> & Hd).
  f_equal. f_equal. apply map_eq. intros n. rewrite Hd.
  unfold part_outputs.
  destruct (decide (n ∈ output_names part)) as [Hin | Hnin].
  - destruct (var_name_to_result dp !! n) as [v | ] eqn:Hv.
    + symmetry. by apply map_lookup_filter_Some.
    + symmetry. apply map_lookup_filter_None. by left.
  - rewrite lookup_empty. symmetry. apply map_lookup_filter_None.
    right. intros v _. done.
Qed.

Lemma named_results_incomplete (m : gmap string Value) (names : list string) :
  Exists (fun name => m !! name = None) names ->
  forall (acc : NamedArrays) (w : World Ext),
    named_results m names acc w = (Raise KeyError, w).
Proof.
  induction names as [ | n0 names IH ]; intros Hex acc w.
  - inversion Hex.
  - simpl. unfold bind, getitem.
    destruct (m !! n0) as [v | ] eqn:Hv; simpl; [ | done ].
    apply IH. apply Exists_cons in Hex as [Hex | Hex]; [ congruence | done ].
Qed.

Lemma part_complete_or_incomplete (dp : DistributedGraphPartition) (part : Part) :
  part_complete dp part \/ part_incomplete dp part.
Proof.
  unfold part_complete, part_incomplete.
  destruct (decide (Exists (fun name => var_name_to_result dp !! name = None)
                      (output_names part))) as [Hex | Hnex]; [ by right | left ].
  apply not_Exists_Forall in Hnex; [ | intros x; apply _ ].
  eapply Forall_impl; [ exact Hnex | ].
  intros n Hn. simpl in Hn. by apply not_eq_None_Some.
Qed.

(** The loop on complete parts: one code generation per part, in order,
    each on the outputs of its part, and one program per [pid]. *)
Lemma compile_parts_complete (self : Caller) (dp : DistributedGraphPartition)
    (ps : list (PartId * Part)) :
  loopy_returns ->
  Forall (fun ip => part_complete dp ip.2) ps ->
  forall (acc : gmap PartId Value) (w : World Ext),
    exists prgs w',
      compile_parts self dp ps acc w = (Ok prgs, w')
      /\ dom prgs = dom acc ∪ list_to_set ((fun ip => pid ip.2) <$> ps)
      /\ trace w' =
           trace w ++
             ((fun ip => call_dag_to_transformed_loopy_prg self
                           (part_outputs dp ip.2)) <$> ps).
Proof.
  intros Hloopy. induction 1 as [ | [i part] ps Hc _ IH ]; intros acc w.
  - exists acc, w. simpl. split_and!; [ done | | by rewrite app_nil_r ].
    by rewrite (right_id_L ∅ (∪)).
  - simpl in Hc. simpl. unfold bind at 1.
    rewrite (named_results_complete dp part w Hc).
    unfold bind at 1. unfold deref at 1. simpl.
    unfold bind at 1. unfold external at 1. simpl.
    destruct (Hloopy self (heap w !! caller_actx self) (part_outputs dp part)
                (ext w)) as [r Hr].
    rewrite Hr. simpl.
    match goal with |- context [compile_parts self dp ps ?a ?w1] =>
      destruct (IH a w1) as (prgs & w' & Hrun & Hdom & Htrace)
    end.
    exists prgs, w'. rewrite Hrun. split_and!; [ done | | ].
    + rewrite Hdom, dom_insert_L. simpl.
      rewrite (comm_L (∪) {[pid part]} (dom acc)). by rewrite (assoc_L (∪)).
    + rewrite Htrace. simpl. by rewrite <- app_assoc.
Qed.

(** The loop with an incomplete part: [KeyError]. *)
Lemma compile_parts_incomplete (self : Caller) (dp : DistributedGraphPartition)
    (ps : list (PartId * Part)) :
  loopy_returns ->
  Exists (fun ip => part_incomplete dp ip.2) ps ->
  forall (acc : gmap PartId Value) (w : World Ext),
    (compile_parts self dp ps acc w).1 = Raise KeyError.
Proof.
  intros Hloopy. induction ps as [ | [i part] ps IH ]; intros Hex acc w.
  - inversion Hex.
  - simpl. unfold bind at 1.
    destruct (part_complete_or_incomplete dp part) as [Hc | Hi].
    + rewrite (named_results_complete dp part w Hc).
      unfold bind at 1. unfold deref at 1. simpl.
      unfold bind at 1. unfold external at 1. simpl.
      destruct (Hloopy self (heap w !! caller_actx self) (part_outputs dp part)
                  (ext w)) as [r Hr].
      rewrite Hr. simpl. apply IH.
      apply Exists_cons in Hex as [Hex | Hex]; [ | done ].
      simpl in Hex. unfold part_complete, part_incomplete in *.
      apply Exists_exists in Hex as (n & Hn & Hnone).
      rewrite Forall_forall in Hc. destruct (Hc n Hn) as [v Hv]. congruence.
    + by rewrite (named_results_incomplete _ _ Hi).
Qed.

(** When every part is complete and code generation returns, a
    compilation returns a compiled function on the caller's array
    context that holds the renumbered partition, one program for the
    [pid] of each part and no other, and the two name maps and the
    template it was given; after the renumbering it made one code
    generation call per part, in the order of the parts, each on the
    outputs of its part. *)
Theorem compilation_succeeds (self : Caller) (d : NamedArrays)
    (inames onames : gmap Keys string) (tmpl : ArrayContainer) (w : World Ext)
    (o : Obj) (comm tag : Value) (d1 : NamedArrays)
    (p p' : DistributedGraphPartition) (tag' : Value) (e1 e2 e3 : Ext) :
  heap w !! caller_actx self = Some o ->
  attrs o !! "mpi_communicator" = Some comm ->
  attrs o !! "mpi_base_tag" = Some tag ->
  deduplicate_data_wrappers d (ext w) = (Returns d1, e1) ->
  find_distributed_partition d1 e1 = (Returns p, e2) ->
  number_distributed_tags comm p tag e2 = (Returns (p', tag'), e3) ->
  loopy_returns ->
  Forall (fun ip => part_complete p' ip.2) (parts p') ->
  let r := _dag_to_compiled_func self d inames onames tmpl w in
  exists prgs,
    r.1 = Ok (mkCompiled (caller_actx self) p' prgs inames onames tmpl)
    /\ dom prgs = list_to_set ((fun ip => pid ip.2) <$> parts p')
    /\ trace r.2 =
         trace w ++
           [call_deduplicate_data_wrappers d;
            call_find_distributed_partition d1;
            call_number_distributed_tags comm p tag] ++
           ((fun ip => call_dag_to_transformed_loopy_prg self
                         (part_outputs p' ip.2)) <$> parts p').
Proof.
  intros Ho Hc Ht H1 H2 H3 Hloopy Hcomplete r. subst r.
  rewrite (dag_to_compiled_func_run self d inames onames tmpl w o comm tag
             d1 p e1 e2) by done.
  rewrite H3. simpl.
  match goal with |- context [compile_parts self p' (parts p') ∅ ?w1] =>
    destruct (compile_parts_complete self p' (parts p') Hloopy Hcomplete ∅ w1)
      as (prgs & w' & Hrun & Hdom & Htrace)
  end.
  rewrite Hrun. simpl. exists prgs. split_and!.
  - done.
  - rewrite Hdom, dom_empty_L. by rewrite (left_id_L ∅ (∪)).
  - rewrite Htrace. simpl. by rewrite <- app_assoc.
Qed.

(** When some part names an output the renumbered partition has no result
    for (and code generation returns), a compilation raises [KeyError] -
    and the array context has by then been given the new base tag. *)
Theorem compilation_key_error (self : Caller) (d : NamedArrays)
    (inames onames : gmap Keys string) (tmpl : ArrayContainer) (w : World Ext)
    (o : Obj) (comm tag : Value) (d1 : NamedArrays)
    (p p' : DistributedGraphPartition) (tag' : Value) (e1 e2 e3 : Ext) :
  heap w !! caller_actx self = Some o ->
  attrs o !! "mpi_communicator" = Some comm ->
  attrs o !! "mpi_base_tag" = Some tag ->
  deduplicate_data_wrappers d (ext w) = (Returns d1, e1) ->
  find_distributed_partition d1 e1 = (Returns p, e2) ->
  number_distributed_tags comm p tag e2 = (Returns (p', tag'), e3) ->
  loopy_returns ->
  Exists (fun ip => part_incomplete p' ip.2) (parts p') ->
  let r := _dag_to_compiled_func self d inames onames tmpl w in
  r.1 = Raise KeyError
  /\ heap r.2 =
       <[caller_actx self :=
           mkObj (cls o) (<["mpi_base_tag" := tag']> (attrs o))]> (heap w).
Proof.
  intros Ho Hc Ht H1 H2 H3 Hloopy Hincomplete r. subst r.
  rewrite (dag_to_compiled_func_run self d inames onames tmpl w o comm tag
             d1 p e1 e2) by done.
  rewrite H3. simpl.
  match goal with |- context [compile_parts self p' (parts p') ∅ ?w1] =>
    pose proof (compile_parts_incomplete self p' (parts p') Hloopy Hincomplete
                  ∅ w1) as Hrun;
    destruct (compile_parts_frame self p' (parts p') ∅ w1)
      as (Hheap & _);
    destruct (compile_parts self p' (parts p') ∅ w1) as [[prgs | e] w']
  end; simpl in *; [ done | ].
  split; [ congruence | done ].
Qed.

(** When [number_distributed_tags] raises, a compilation raises the same
    exception; the base tag of the array context (indeed the whole heap)
    is as before, and no code was generated: the renumbering is the last
    call made. *)
Theorem renumbering_failure_keeps_base_tag (self : Caller) (d : NamedArrays)
    (inames onames : gmap Keys string) (tmpl : ArrayContainer) (w : World Ext)
    (o : Obj) (comm tag : Value) (d1 : NamedArrays)
    (p : DistributedGraphPartition) (e1 e2 e3 : Ext) (code : positive) :
  heap w !! caller_actx self = Some o ->
  attrs o !! "mpi_communicator" = Some comm ->
  attrs o !! "mpi_base_tag" = Some tag ->
  deduplicate_data_wrappers d (ext w) = (Returns d1, e1) ->
  find_distributed_partition d1 e1 = (Returns p, e2) ->
  number_distributed_tags comm p tag e2 = (Raises code, e3) ->
  let r := _dag_to_compiled_func self d inames onames tmpl w in
  r.1 = Raise (ExternalError code)
  /\ heap r.2 = heap w
  /\ trace r.2 =
       trace w ++
         [call_deduplicate_data_wrappers d;
          call_find_distributed_partition d1;
          call_number_distributed_tags comm p tag].
Proof.
  intros Ho Hc Ht H1 H2 H3 r. subst r.
  rewrite (dag_to_compiled_func_run self d inames onames tmpl w o comm tag
             d1 p e1 e2) by done.
  by rewrite H3.
Qed.

(** On an array context without [mpi_base_tag] (an eager one, say) a
    compilation raises [AttributeError] before the renumbering: the only
    calls made are the deduplication and the partitioning, and nothing
    in the heap changes. *)
Theorem compilation_needs_base_tag (self : Caller) (d : NamedArrays)
    (inames onames : gmap Keys string) (tmpl : ArrayContainer) (w : World Ext)
    (o : Obj) (d1 : NamedArrays) (p : DistributedGraphPartition) (e1 e2 : Ext) :
  heap w !! caller_actx self = Some o ->
  attrs o !! "mpi_base_tag" = None ->
  deduplicate_data_wrappers d (ext w) = (Returns d1, e1) ->
  find_distributed_partition d1 e1 = (Returns p, e2) ->
  let r := _dag_to_compiled_func self d inames onames tmpl w in
  r.1 = Raise AttributeError
  /\ heap r.2 = heap w
  /\ trace r.2 =
       trace w ++
         [call_deduplicate_data_wrappers d; call_find_distributed_partition d1].
Proof.
  intros Ho Ht H1 H2 r. subst r.
  assert (_dag_to_compiled_func self d inames onames tmpl w =
            (Raise AttributeError,
             mkWorld (heap w) (warnings w) (logged w)
               (trace w ++
                  [call_deduplicate_data_wrappers d;
                   call_find_distributed_partition d1]) e2)) as ->.
  { unfold _dag_to_compiled_func.
    unfold bind at 1. unfold external at 1. rewrite H1. simpl.
    unfold bind at 1. unfold external at 1. simpl. rewrite H2. simpl.
    unfold bind at 1. unfold getattr at 1. simpl. rewrite Ho, Ht. simpl.
    by rewrite <- app_assoc. }
  done.
Qed.

End CompilationDetails.

(** ** Calling a compiled function, the calls made and the failing cases *)

Section CallDetails.
Context {Ext : Type} `{!Externals Ext}.

(** A traversal that returns has made one [thaw] call per leaf of the
    template, in traversal order, each on the entry of its leaf. *)
Lemma rec_keyed_map_trace (self : DistributedCompiledFunction)
    (out : gmap string Value) (ary : ArrayContainer) :
  forall (keys : Keys) (w w' : World Ext) (res : ArrayContainer),
    rec_keyed_map (to_output_template self out) keys ary w = (Ok res, w') ->
    exists calls,
      trace w' = trace w ++ calls
      /\ Forall2 (thaw_of_leaf self out) calls (leaves keys ary).
Proof.
  induction ary as [a | items IH] using ArrayContainer_nested_ind;
    intros keys w w' res.
  - simpl. unfold bind. rewrite to_output_template_run.
    destruct (output_id_to_name_in_program self !! keys) as [name | ] eqn:Hn;
      [ | done ].
    destruct (out !! name) as [a' | ] eqn:Ha; [ | done ].
    unfold external.
    destruct (thaw (heap w !! actx self) a' (ext w)).1 as [v | code];
      [ | done ].
    intros [= <- <-]. exists [call_thaw (actx self) a']. split; [ done | ].
    constructor; [ | constructor ]. by exists name, a'.
  - rewrite rec_keyed_map_Container, leaves_Container. unfold bind at 1.
    assert (forall (w w' : World Ext) (rs : list (Key * ArrayContainer)),
              rec_keyed_map_items (to_output_template self out) keys items w
                = (Ok rs, w') ->
              exists calls,
                trace w' = trace w ++ calls
                /\ Forall2 (thaw_of_leaf self out) calls
                     (leaves_items keys items)) as Hitems.
    { clear w w' res.
      induction IH as [ | [k c] items Hc _ IHitems ]; intros w w' rs.
      - simpl. intros [= <- <-]. exists []. split; [ | constructor ].
        by rewrite app_nil_r.
      - rewrite rec_keyed_map_items_cons, leaves_items_cons. unfold bind at 1.
        destruct (rec_keyed_map (to_output_template self out) (keys ++ [k]) c w)
          as [[r1 | e] w1] eqn:Hrun1; [ | done ].
        destruct (Hc _ _ _ _ Hrun1) as (c1 & Ht1 & Hf1).
        unfold bind at 1.
        destruct (rec_keyed_map_items (to_output_template self out) keys items w1)
          as [[rs' | e] w2] eqn:Hrun2; [ | done ].
        destruct (IHitems _ _ _ Hrun2) as (c2 & Ht2 & Hf2).
        intros [= <- <-]. exists (c1 ++ c2). split.
        + by rewrite Ht2, Ht1, app_assoc.
        + by apply Forall2_app. }
    destruct (rec_keyed_map_items (to_output_template self out) keys items w)
      as [[rs | e] w1] eqn:Hrun; [ | done ].
    intros [= <- <-]. by eapply Hitems.
Qed.

(** With [thaw] returning, a traversal either returns or raises
    [KeyError], and it raises [KeyError] when a leaf has no entry. *)
Lemma rec_keyed_map_key_error (self : DistributedCompiledFunction)
    (out : gmap string Value) (ary : ArrayContainer) :
  thaw_returns ->
  forall (keys : Keys) (w w' : World Ext) (r : Result ArrayContainer),
    rec_keyed_map (to_output_template self out) keys ary w = (r, w') ->
    ((exists res, r = Ok res) \/ r = Raise KeyError)
    /\ (Exists (output_missing self out) (leaves keys ary) ->
        r = Raise KeyError).
Proof.
  intros Hthaw.
  induction ary as [a | items IH] using ArrayContainer_nested_ind;
    intros keys w w' r.
  - simpl. unfold bind. rewrite to_output_template_run.
    unfold output_missing.
    destruct (output_id_to_name_in_program self !! keys) as [name | ] eqn:Hn.
    2: { intros [= <- <-]. split; [ by right | done ]. }
    destruct (out !! name) as [a' | ] eqn:Ha.
    2: { intros [= <- <-]. split; [ by right | done ]. }
    unfold external.
    destruct (Hthaw (heap w !! actx self) a' (ext w)) as [v Hv]. rewrite Hv.
    intros [= <- <-]. split; [ left; by eexists | ].
    intros Hex. apply Exists_cons in Hex as [Hex | Hex].
    + simpl in Hex. rewrite Hn in Hex. congruence.
    + inversion Hex.
  - rewrite rec_keyed_map_Container, leaves_Container. unfold bind at 1.
    assert (forall (w w' : World Ext) (r : Result (list (Key * ArrayContainer))),
              rec_keyed_map_items (to_output_template self out) keys items w
                = (r, w') ->
              ((exists rs, r = Ok rs) \/ r = Raise KeyError)
              /\ (Exists (output_missing self out) (leaves_items keys items) ->
                  r = Raise KeyError)) as Hitems.
    { clear w w' r.
      induction IH as [ | [k c] items Hc _ IHitems ]; intros w w' r.
      - simpl. intros [= <- <-]. split; [ left; by eexists | ].
        intros Hex. inversion Hex.
      - rewrite rec_keyed_map_items_cons, leaves_items_cons. unfold bind at 1.
        destruct (rec_keyed_map (to_output_template self out) (keys ++ [k]) c w)
          as [[r1 | e] w1] eqn:Hrun1;
          destruct (Hc _ _ _ _ Hrun1) as [Hcase1 Hmiss1].
        2: { intros [= <- <-].
             destruct Hcase1 as [[res Hres] | [= ->]]; [ done | ].
             split; [ by right | done ]. }
        unfold bind at 1.
        destruct (rec_keyed_map_items (to_output_template self out) keys items w1)
          as [[rs' | e] w2] eqn:Hrun2;
          destruct (IHitems _ _ _ Hrun2) as [Hcase2 Hmiss2];
          intros [= <- <-].
        + split; [ left; by eexists | ].
          intros Hex. apply Exists_app in Hex as [Hex | Hex].
          * by specialize (Hmiss1 Hex).
          * by specialize (Hmiss2 Hex).
        + destruct Hcase2 as [[res Hres] | [= ->]]; [ done | ].
          split; [ by right | done ]. }
    destruct (rec_keyed_map_items (to_output_template self out) keys items w)
      as [[rs | e] w1] eqn:Hrun;
      destruct (Hitems _ _ _ Hrun) as [Hcase Hmiss];
      intros [= <- <-].
    + split; [ left; by eexists | ].
      intros Hex. by specialize (Hmiss Hex).
    + destruct Hcase as [[res Hres] | [= ->]]; [ done | ].
      split; [ by right | done ].
Qed.

(** A call that returns has made, after the two library calls, exactly
    one [thaw] call per leaf of [output_template], in traversal order,
    each on the entry of the result dictionary for the keys of its
    leaf. *)
Theorem call_thaws_each_leaf_once (self : DistributedCompiledFunction)
    (arg_id_to_arg : gmap Keys Value) (w : World Ext) (o : Obj)
    (queue comm allocator : Value) (bufs out_dict : gmap string Value)
    (e1 e2 : Ext) (res : ArrayContainer) :
  heap w !! actx self = Some o ->
  attrs o !! "queue" = Some queue ->
  attrs o !! "mpi_communicator" = Some comm ->
  attrs o !! "allocator" = Some allocator ->
  args_to_cl_buffers (Some o) (input_id_to_name_in_program self) arg_id_to_arg
    (ext w) = (Returns bufs, e1) ->
  execute_distributed_partition (distributed_partition self)
    (part_id_to_prg self) queue comm allocator bufs e1
    = (Returns out_dict, e2) ->
  (DistributedCompiledFunction_call self arg_id_to_arg w).1 = Ok res ->
  exists calls,
    trace (DistributedCompiledFunction_call self arg_id_to_arg w).2 =
      trace w ++
        [call_args_to_cl_buffers (actx self)
           (input_id_to_name_in_program self) arg_id_to_arg;
         call_execute_distributed_partition (distributed_partition self)
           (part_id_to_prg self) queue comm allocator bufs] ++ calls
    /\ Forall2 (thaw_of_leaf self out_dict) calls
         (leaves [] (output_template self)).
Proof.
  intros Ho Hq Hc Hal Hbufs Hout.
  rewrite (call_run self arg_id_to_arg w o queue comm allocator bufs e1)
    by done.
  rewrite Hout. simpl.
  match goal with |- context [rec_keyed_map ?f [] ?t ?w2] =>
    destruct (rec_keyed_map f [] t w2) as [r w'] eqn:Hrun
  end.
  simpl. intros ->.
  destruct (rec_keyed_map_trace _ _ _ _ _ _ _ Hrun) as (calls & Ht & Hcalls).
  exists calls. split; [ | done ]. simpl in Ht. by rewrite Ht, <- app_assoc.
Qed.

(** When a leaf of [output_template] has no name in
    [output_id_to_name_in_program], or its name no entry in the result
    dictionary (and [thaw] returns), a call raises [KeyError]; the heap
    is as before. *)
Theorem call_key_error (self : DistributedCompiledFunction)
    (arg_id_to_arg : gmap Keys Value) (w : World Ext) (o : Obj)
    (queue comm allocator : Value) (bufs out_dict : gmap string Value)
    (e1 e2 : Ext) :
  heap w !! actx self = Some o ->
  attrs o !! "queue" = Some queue ->
  attrs o !! "mpi_communicator" = Some comm ->
  attrs o !! "allocator" = Some allocator ->
  args_to_cl_buffers (Some o) (input_id_to_name_in_program self) arg_id_to_arg
    (ext w) = (Returns bufs, e1) ->
  execute_distributed_partition (distributed_partition self)
    (part_id_to_prg self) queue comm allocator bufs e1
    = (Returns out_dict, e2) ->
  thaw_returns ->
  Exists (output_missing self out_dict) (leaves [] (output_template self)) ->
  let r := DistributedCompiledFunction_call self arg_id_to_arg w in
  r.1 = Raise KeyError /\ heap r.2 = heap w.
Proof.
  intros Ho Hq Hc Hal Hbufs Hout Hthaw Hmissing r.
  destruct (call_trace self arg_id_to_arg w o queue comm allocator bufs e1
              Ho Hq Hc Hal Hbufs) as [Hheap _].
  fold r in Hheap. split; [ | done ]. subst r.
  rewrite (call_run self arg_id_to_arg w o queue comm allocator bufs e1)
    by done.
  rewrite Hout. simpl.
  match goal with |- context [rec_keyed_map ?f [] ?t ?w2] =>
    destruct (rec_keyed_map f [] t w2) as [r w'] eqn:Hrun
  end.
  destruct (rec_keyed_map_key_error _ _ _ Hthaw _ _ _ _ Hrun) as [_ Hkey].
  simpl. by apply Hkey.
Qed.

(** A failing library call ends the call of a compiled function at once:
    when [_args_to_cl_buffers] raises, [execute_distributed_partition]
    is not called; when [execute_distributed_partition] raises, nothing
    is thawed. The exception is passed on and the heap is untouched. *)
Theorem call_failures_propagate (self : DistributedCompiledFunction)
    (arg_id_to_arg : gmap Keys Value) (w : World Ext) (o : Obj)
    (queue comm allocator : Value) :
  heap w !! actx self = Some o ->
  attrs o !! "queue" = Some queue ->
  attrs o !! "mpi_communicator" = Some comm ->
  attrs o !! "allocator" = Some allocator ->
  let r := DistributedCompiledFunction_call self arg_id_to_arg w in
  let buffers :=
    call_args_to_cl_buffers (actx self) (input_id_to_name_in_program self)
      arg_id_to_arg in
  (forall code e1,
     args_to_cl_buffers (Some o) (input_id_to_name_in_program self)
       arg_id_to_arg (ext w) = (Raises code, e1) ->
     r.1 = Raise (ExternalError code)
     /\ heap r.2 = heap w
     /\ trace r.2 = trace w ++ [buffers])
  /\ (forall bufs e1 code e2,
        args_to_cl_buffers (Some o) (input_id_to_name_in_program self)
          arg_id_to_arg (ext w) = (Returns bufs, e1) ->
        execute_distributed_partition (distributed_partition self)
          (part_id_to_prg self) queue comm allocator bufs e1
          = (Raises code, e2) ->
        r.1 = Raise (ExternalError code)
        /\ heap r.2 = heap w
        /\ trace r.2 =
             trace w ++
               [buffers;
                call_execute_distributed_partition (distributed_partition self)
                  (part_id_to_prg self) queue comm allocator bufs]).
Proof.
  intros Ho Hq Hc Hal r buffers. split.
  - intros code e1 Hbufs. subst r buffers.
    assert (DistributedCompiledFunction_call self arg_id_to_arg w =
              (Raise (ExternalError code),
               mkWorld (heap w) (warnings w) (logged w)
                 (trace w ++
                    [call_args_to_cl_buffers (actx self)
                       (input_id_to_name_in_program self) arg_id_to_arg]) e1))
      as ->; [ | done ].
    unfold DistributedCompiledFunction_call.
    unfold bind at 1. unfold deref at 1. simpl. rewrite Ho.
    unfold bind at 1. unfold external at 1. by rewrite Hbufs.
  - intros bufs e1 code e2 Hbufs Hexec. subst r buffers.
    rewrite (call_run self arg_id_to_arg w o queue comm allocator bufs e1)
      by done.
    by rewrite Hexec.
Qed.

End CallDetails.

(** ** clone, the warnings and the failing case *)

Section CloneDetails.
Context {Ext : Type} `{!Externals Ext}.

(** Cloning goes through the constructor, so cloning an array context
    whose [allocator] is [None] issues the no-allocator warning again
    (once per [__init__] body with the check), and cloning one that has
    an allocator issues no warning. *)
Theorem clone_repeats_allocator_warning (l : loc) (o : Obj) (w : World Ext) :
  heap w !! l = Some o ->
  cls o ∈ mpi_classes ->
  (forall n, n ∈ carried (cls o) -> is_Some (attrs o !! n)) ->
  warnings (clone l w).2 =
    warnings w ++
      (if is_None (default VNone (attrs o !! "allocator"))
       then replicate (allocator_checks (cls o)) msg_no_allocator
       else []).
Proof.
  intros Ho Hc Hattrs.
  rewrite (clone_run l o w Ho Hc Hattrs).
  rewrite (instantiate_run (cls o)) by (by apply mpi_classes_public).
  by rewrite constructed_warnings.
Qed.

(** [clone] reads the attributes before it constructs anything: when the
    original lacks one of them, [clone] raises [AttributeError] and the
    state is as before - no object was created, no warning issued, no
    call made. *)
Theorem clone_missing_attribute (l : loc) (o : Obj) (w : World Ext)
    (n : string) :
  heap w !! l = Some o ->
  cls o ∈ mpi_classes ->
  n ∈ carried (cls o) ->
  attrs o !! n = None ->
  clone l w = (Raise AttributeError, w).
Proof.
  intros Ho Hc Hn Hnone.
  unfold clone, bind, type_of. rewrite Ho.
  unfold mpi_classes in Hc. unfold carried in Hn.
  destruct o as [c a]. simpl in *.
  repeat (apply elem_of_cons in Hc as [-> | Hc]); [ .. | by inversion Hc ].
  all: simpl in Hn.
  all: unfold MPIPyOpenCLArrayContext_clone, MPIPytatoArrayContextBase_clone.
  all: unfold bind, type_of, getattr; rewrite Ho; simpl.
  all: repeat (rewrite ?Ho; simpl;
               match goal with
               | |- context [?m !! ?k] =>
                   match type of m with
                   | gmap string Value =>
                       destruct (m !! k) eqn:?; simpl; [ | done ]
                   end
               end).
  all: repeat (apply elem_of_cons in Hn as [-> | Hn]); try congruence;
         by inversion Hn.
Qed.

End CloneDetails.

(** ** From compile to call *)

Section Pipeline.
Context {Ext : Type} `{!Externals Ext}.

(** The programs a loop that returns leaves behind: one per part id, and
    each of them either there before or generated for a part with its
    id, on the outputs of that part. *)
Lemma compile_parts_programs (self : Caller) (dp : DistributedGraphPartition)
    (ps : list (PartId * Part)) :
  forall (acc prgs : gmap PartId Value) (w w' : World Ext),
    compile_parts self dp ps acc w = (Ok prgs, w') ->
    dom prgs = dom acc ∪ list_to_set ((fun ip => pid ip.2) <$> ps)
    /\ forall i v,
         prgs !! i = Some v ->
         acc !! i = Some v
         \/ generated_for self (heap w !! caller_actx self) dp ps i v.
Proof.
  induction ps as [ | [i0 part] ps IH ]; intros acc prgs w w'.
  - simpl. intros [= <- <-]. split; [ by rewrite (right_id_L ∅ (∪)) | ].
    intros i v Hv. by left.
  - simpl. unfold bind at 1.
    destruct (part_complete_or_incomplete dp part) as [Hc | Hi].
    2: { by rewrite (named_results_incomplete _ _ Hi ∅ w). }
    rewrite (named_results_complete dp part w Hc).
    unfold bind at 1. unfold deref at 1. simpl.
    unfold bind at 1. unfold external at 1. simpl.
    destruct (dag_to_transformed_loopy_prg self (heap w !! caller_actx self)
                (part_outputs dp part) (ext w)) as [[r | code] e1] eqn:Hr;
      simpl; [ | done ].
    intros Hrun. apply IH in Hrun as [Hdom Hprgs]. simpl in Hprgs.
    split.
    + rewrite Hdom, dom_insert_L.
      rewrite (comm_L (∪) {[pid part]} (dom acc)). by rewrite (assoc_L (∪)).
    + intros i v Hv. apply Hprgs in Hv as [Hv | (ip & e & r' & Hin & Hp & Hg & ->)].
      * destruct (decide (pid part = i)) as [<- | Hne].
        -- rewrite lookup_insert_eq in Hv. injection Hv as <-.
           right. exists (i0, part), (ext w), r.
           split_and!; [ by left | done | simpl; by rewrite Hr | done ].
        -- rewrite lookup_insert_ne in Hv by done. by left.
      * right. exists ip, e, r'. split_and!; [ by right | done | done | done ].
Qed.

(** What [actx.compile(f)] compiles runs on [actx]. The compiled function
    that a compilation through the caller returned holds one program per
    part id of the renumbered partition, each of them the first result
    of a code generation call made on the context, with its new base
    tag, for a part with that id and on the outputs of that part. When
    called it hands [execute_distributed_partition] the renumbered
    partition, these programs, and the queue, communicator and allocator
    of [actx]; the context keeps the base tag the compilation gave it. *)
Theorem compiled_function_runs_on_its_context (l : loc) (f : Value)
    (d : NamedArrays) (inames onames : gmap Keys string)
    (tmpl : ArrayContainer) (w : World Ext) (o : Obj)
    (comm queue allocator tag : Value) (d1 : NamedArrays)
    (p p' : DistributedGraphPartition) (tag' : Value) (e1 e2 e3 : Ext)
    (cf : DistributedCompiledFunction) :
  heap w !! l = Some o ->
  attrs o !! "mpi_communicator" = Some comm ->
  attrs o !! "queue" = Some queue ->
  attrs o !! "allocator" = Some allocator ->
  attrs o !! "mpi_base_tag" = Some tag ->
  deduplicate_data_wrappers d (ext w) = (Returns d1, e1) ->
  find_distributed_partition d1 e1 = (Returns p, e2) ->
  number_distributed_tags comm p tag e2 = (Returns (p', tag'), e3) ->
  let self := MPIPytatoArrayContextBase_compile l f in
  let r := _dag_to_compiled_func self d inames onames tmpl w in
  r.1 = Ok cf ->
  let o' := mkObj (cls o) (<["mpi_base_tag" := tag']> (attrs o)) in
  heap r.2 !! l = Some o'
  /\ actx cf = l
  /\ distributed_partition cf = p'
  /\ dom (part_id_to_prg cf) = list_to_set ((fun ip => pid ip.2) <$> parts p')
  /\ (forall i v,
        part_id_to_prg cf !! i = Some v ->
        generated_for self (Some o') p' (parts p') i v)
  /\ forall (arg_id_to_arg : gmap Keys Value) (bufs : gmap string Value)
       (e4 : Ext),
       args_to_cl_buffers (Some o') inames arg_id_to_arg (ext r.2)
         = (Returns bufs, e4) ->
       let r2 := DistributedCompiledFunction_call cf arg_id_to_arg r.2 in
       heap r2.2 = heap r.2
       /\ exists calls,
            trace r2.2 =
              trace r.2 ++
                [call_args_to_cl_buffers l inames arg_id_to_arg;
                 call_execute_distributed_partition p' (part_id_to_prg cf)
                   queue comm allocator bufs] ++ calls
            /\ Forall (is_thaw_call l) calls.
Proof.
  intros Ho Hc Hq Hal Ht H1 H2 H3 self r Hcf o'.
  assert (heap r.2 = <[l := o']> (heap w)
          /\ exists prgs,
               cf = mkCompiled l p' prgs inames onames tmpl
               /\ dom prgs = list_to_set ((fun ip => pid ip.2) <$> parts p')
               /\ forall i v,
                    prgs !! i = Some v ->
                    generated_for self (Some o') p' (parts p') i v)
    as [Hheap (prgs & -> & Hdom & Hprgs)].
  { subst r.
    rewrite (dag_to_compiled_func_run self d inames onames tmpl w o comm tag
               d1 p e1 e2) in Hcf |- * by done.
    rewrite H3 in Hcf |- *. simpl in Hcf |- *.
    match goal with |- context [compile_parts self p' (parts p') ∅ ?w1] =>
      destruct (compile_parts_frame self p' (parts p') ∅ w1)
        as (Hh & _);
      pose proof (compile_parts_programs self p' (parts p') ∅) as Hloop;
      destruct (compile_parts self p' (parts p') ∅ w1) as [[prgs | e] w2]
        eqn:Hrun
    end; simpl in *; [ | done ].
    split; [ done | ]. exists prgs.
    destruct (Hloop _ _ _ Hrun) as [Hdom Hprgs]. simpl in Hprgs.
    split_and!.
    - by inversion Hcf.
    - rewrite Hdom, dom_empty_L. by rewrite (left_id_L ∅ (∪)).
    - intros i v Hv. apply Hprgs in Hv as [Hv | Hv]; [ done | ].
      assert (<[l := o']> (heap w) !! l = Some o') as Hl
        by (by eapply lookup_insert_same).
      unfold o' in Hl |- *. by rewrite Hl in Hv. }
  assert (heap r.2 !! l = Some o') as Ho'
    by (rewrite Hheap; by eapply lookup_insert_same).
  split_and!; [ done | done | done | done | done | ].
  intros arg_id_to_arg bufs e4 Hbufs.
  apply (call_trace (mkCompiled l p' prgs inames onames tmpl) arg_id_to_arg r.2
           o' queue comm allocator bufs e4); try done.
  - subst o'. simpl. by rewrite lookup_insert_ne.
  - subst o'. simpl. by rewrite lookup_insert_ne.
  - subst o'. simpl. by rewrite lookup_insert_ne.
Qed.

End Pipeline.

(** * Further concrete runs *)

Lemma sample_loopy_returns : loopy_returns (Ext:=nat).
Proof. intros self o d e. by eexists. Qed.

Lemma sample_thaw_returns : thaw_returns (Ext:=nat).
Proof. intros o a e. by eexists. Qed.

Lemma forgetful_loopy_returns : loopy_returns (Ext:=unit).
Proof. intros self o d e. by eexists. Qed.

Lemma w_lazy_heap : heap w_lazy = [o_lazy].
Proof. vm_compute. reflexivity. Qed.

(** A construction whose meshmode constructor rejects the queue. *)
Lemma construction_failure_propagates_witness :
  (instantiate MPIPyOpenCLArrayContext
     (args_mpi_pyopencl comm0 VNone None None None) u0).1
    = Raise (ExternalError 3).
Proof.
  assert (MPIPyOpenCLArrayContext ∈ public_classes) as H1
    by (unfold public_classes; in_list).
  assert ((base_init (meshmode_base MPIPyOpenCLArrayContext)
             (base_args MPIPyOpenCLArrayContext VNone None None None) ∅
             (ext u0)).1 = Raises 3%positive) as H2 by reflexivity.
  exact (proj1 (construction_failure_propagates MPIPyOpenCLArrayContext
                  comm0 VNone VNone None None None u0 3%positive H1 H2)).
Defined.

(** A compilation on the lazy context: one part, one program. *)
Lemma compilation_succeeds_witness :
  exists prgs,
    (_dag_to_compiled_func caller0 dict0 ∅ ∅ (Leaf VNone) w_lazy).1
      = Ok (mkCompiled 0%nat partition0 prgs ∅ ∅ (Leaf VNone))
    /\ dom prgs = {[ 1%positive ]}.
Proof.
  assert (heap w_lazy !! caller_actx caller0 = Some o_lazy) as H1
    by (by rewrite w_lazy_heap).
  assert (attrs o_lazy !! "mpi_communicator" = Some comm0) as H2
    by (vm_compute; reflexivity).
  assert (attrs o_lazy !! "mpi_base_tag" = Some (VInt 5)) as H3
    by (vm_compute; reflexivity).
  assert (deduplicate_data_wrappers dict0 (ext w_lazy) = (Returns dict0, 2%nat))
    as H4 by (vm_compute; reflexivity).
  assert (find_distributed_partition dict0 2%nat = (Returns partition0, 3%nat))
    as H5 by (vm_compute; reflexivity).
  assert (number_distributed_tags comm0 partition0 (VInt 5) 3%nat
          = (Returns (partition0, VInt 6), 4%nat)) as H6
    by (vm_compute; reflexivity).
  assert (Forall (fun ip => part_complete partition0 ip.2) (parts partition0))
    as H7.
  { repeat constructor. by eexists. }
  destruct (compilation_succeeds caller0 dict0 ∅ ∅ (Leaf VNone) w_lazy o_lazy
              comm0 (VInt 5) dict0 partition0 partition0 (VInt 6)
              2%nat 3%nat 4%nat H1 H2 H3 H4 H5 H6 sample_loopy_returns H7)
    as (prgs & Hok & Hdom & _).
  exists prgs. split; [ exact Hok | ].
  rewrite Hdom. simpl. by rewrite (right_id_L ∅ (∪)).
Defined.

(** A compilation on a partition that names an output it has no result
    for: [KeyError], and the base tag has moved on. *)
Lemma compilation_key_error_witness :
  let r := _dag_to_compiled_func caller0 dict0 ∅ ∅ (Leaf VNone) u_lazy in
  r.1 = Raise KeyError
  /\ heap r.2 =
       <[0%nat := mkObj MPIBasePytatoPyOpenCLArrayContext
                    (<["mpi_base_tag" := VInt 5]> (attrs o_lazy))]> (heap u_lazy).
Proof.
  set (p := mkPartition [(1%positive, mkPart 1%positive ["y"])] ∅).
  assert (heap u_lazy !! caller_actx caller0 = Some o_lazy) as H1
    by (vm_compute; reflexivity).
  assert (attrs o_lazy !! "mpi_communicator" = Some comm0) as H2
    by (vm_compute; reflexivity).
  assert (attrs o_lazy !! "mpi_base_tag" = Some (VInt 5)) as H3
    by (vm_compute; reflexivity).
  assert (deduplicate_data_wrappers dict0 (ext u_lazy) = (Returns dict0, tt))
    as H4 by reflexivity.
  assert (find_distributed_partition dict0 tt = (Returns p, tt))
    as H5 by reflexivity.
  assert (number_distributed_tags comm0 p (VInt 5) tt
          = (Returns (p, VInt 5), tt)) as H6 by reflexivity.
  assert (Exists (fun ip => part_incomplete p ip.2) (parts p)) as H7.
  { left. left. reflexivity. }
  exact (compilation_key_error caller0 dict0 ∅ ∅ (Leaf VNone) u_lazy o_lazy
           comm0 (VInt 5) dict0 p p (VInt 5) tt tt tt
           H1 H2 H3 H4 H5 H6 forgetful_loopy_returns H7).
Defined.

(** A compilation on a context whose base tag is [None]: the renumbering
    raises and nothing has changed in the heap. *)
Lemma renumbering_failure_keeps_base_tag_witness :
  let r := _dag_to_compiled_func caller0 dict0 ∅ ∅ (Leaf VNone) w_untagged in
  r.1 = Raise (ExternalError 2) /\ heap r.2 = heap w_untagged.
Proof.
  set (o := mkObj MPIBasePytatoPyOpenCLArrayContext
              (<["mpi_base_tag" := VNone]>
                 (<["mpi_communicator" := comm0]>
                    (<["allocator" := alloc0]> (<["queue" := queue0]> ∅))))).
  assert (heap w_untagged !! caller_actx caller0 = Some o) as H1
    by (vm_compute; reflexivity).
  assert (attrs o !! "mpi_communicator" = Some comm0) as H2
    by (vm_compute; reflexivity).
  assert (attrs o !! "mpi_base_tag" = Some VNone) as H3
    by (vm_compute; reflexivity).
  assert (deduplicate_data_wrappers dict0 (ext w_untagged)
          = (Returns dict0, 2%nat)) as H4 by (vm_compute; reflexivity).
  assert (find_distributed_partition dict0 2%nat = (Returns partition0, 3%nat))
    as H5 by (vm_compute; reflexivity).
  assert (number_distributed_tags comm0 partition0 VNone 3%nat
          = (Raises 2%positive, 3%nat)) as H6 by reflexivity.
  destruct (renumbering_failure_keeps_base_tag caller0 dict0 ∅ ∅ (Leaf VNone)
              w_untagged o comm0 VNone dict0 partition0 2%nat 3%nat 3%nat
              2%positive H1 H2 H3 H4 H5 H6) as (Hr & Hheap & _).
  split; [ exact Hr | exact Hheap ].
Defined.

(** A compilation on the eager MPI context, which has no base tag. *)
Lemma compilation_needs_base_tag_witness :
  (_dag_to_compiled_func caller0 dict0 ∅ ∅ (Leaf VNone) w_eager).1
    = Raise AttributeError.
Proof.
  set (o := mkObj MPIPyOpenCLArrayContext
              (<["mpi_communicator" := comm0]>
                 (<["_force_device_scalars" := VBool false]>
                    (<["_wait_event_queue_length" := VInt 10]>
                       (<["allocator" := alloc0]> (<["queue" := queue0]> ∅)))))).
  assert (heap w_eager !! caller_actx caller0 = Some o) as H1
    by (vm_compute; reflexivity).
  assert (attrs o !! "mpi_base_tag" = None) as H2 by (vm_compute; reflexivity).
  assert (deduplicate_data_wrappers dict0 (ext w_eager) = (Returns dict0, 2%nat))
    as H3 by (vm_compute; reflexivity).
  assert (find_distributed_partition dict0 2%nat = (Returns partition0, 3%nat))
    as H4 by (vm_compute; reflexivity).
  exact (proj1 (compilation_needs_base_tag caller0 dict0 ∅ ∅ (Leaf VNone)
                  w_eager o dict0 partition0 2%nat 3%nat H1 H2 H3 H4)).
Defined.

(** A call with two leaves: two thaw calls after the two library calls. *)
Lemma call_thaws_each_leaf_once_witness :
  exists calls,
    trace (DistributedCompiledFunction_call compiled0 ∅ w_lazy).2 =
      trace w_lazy ++
        [call_args_to_cl_buffers 0%nat ∅ ∅;
         call_execute_distributed_partition partition0
           {[ 1%positive := VRef 104 ]} queue0 comm0 alloc0 ∅] ++ calls
    /\ length calls = 2%nat.
Proof.
  assert (heap w_lazy !! actx compiled0 = Some o_lazy) as H1
    by (by rewrite w_lazy_heap).
  assert (attrs o_lazy !! "queue" = Some queue0) as H2
    by (vm_compute; reflexivity).
  assert (attrs o_lazy !! "mpi_communicator" = Some comm0) as H3
    by (vm_compute; reflexivity).
  assert (attrs o_lazy !! "allocator" = Some alloc0) as H4
    by (vm_compute; reflexivity).
  assert (args_to_cl_buffers (Some o_lazy)
            (input_id_to_name_in_program compiled0) ∅ (ext w_lazy)
          = (Returns ∅, 2%nat)) as H5 by (vm_compute; reflexivity).
  assert (execute_distributed_partition (distributed_partition compiled0)
            (part_id_to_prg compiled0) queue0 comm0 alloc0 ∅ 2%nat
          = (Returns dict0, 3%nat)) as H6 by (vm_compute; reflexivity).
  assert ((DistributedCompiledFunction_call compiled0 ∅ w_lazy).1
          = Ok (Container
                  [(inl "a", Leaf (VRef 50));
                   (inr 1, Container [(inl "b", Leaf (VRef 50))])])) as H7
    by (vm_compute; reflexivity).
  destruct (call_thaws_each_leaf_once compiled0 ∅ w_lazy o_lazy queue0 comm0
              alloc0 ∅ dict0 2%nat 3%nat _ H1 H2 H3 H4 H5 H6 H7)
    as (calls & Htrace & Hcalls).
  exists calls. split; [ exact Htrace | ].
  apply Forall2_length in Hcalls. exact Hcalls.
Defined.

(** A call whose second leaf has no name. *)
Lemma call_key_error_witness :
  (DistributedCompiledFunction_call compiled_unnamed ∅ w_lazy).1
    = Raise KeyError.
Proof.
  assert (heap w_lazy !! actx compiled_unnamed = Some o_lazy) as H1
    by (by rewrite w_lazy_heap).
  assert (attrs o_lazy !! "queue" = Some queue0) as H2
    by (vm_compute; reflexivity).
  assert (attrs o_lazy !! "mpi_communicator" = Some comm0) as H3
    by (vm_compute; reflexivity).
  assert (attrs o_lazy !! "allocator" = Some alloc0) as H4
    by (vm_compute; reflexivity).
  assert (args_to_cl_buffers (Some o_lazy)
            (input_id_to_name_in_program compiled_unnamed) ∅ (ext w_lazy)
          = (Returns ∅, 2%nat)) as H5 by (vm_compute; reflexivity).
  assert (execute_distributed_partition (distributed_partition compiled_unnamed)
            (part_id_to_prg compiled_unnamed) queue0 comm0 alloc0 ∅ 2%nat
          = (Returns dict0, 3%nat)) as H6 by (vm_compute; reflexivity).
  assert (Exists (output_missing compiled_unnamed dict0)
            (leaves [] (output_template compiled_unnamed))) as H7.
  { right. left. vm_compute. exact I. }
  exact (proj1 (call_key_error compiled_unnamed ∅ w_lazy o_lazy queue0 comm0
                  alloc0 ∅ dict0 2%nat 3%nat H1 H2 H3 H4 H5 H6
                  sample_thaw_returns H7)).
Defined.

(** A call of a compiled function without programs, which the executor
    of the second instance refuses. *)
Lemma call_failures_propagate_witness :
  let r := DistributedCompiledFunction_call compiled_empty ∅ u_lazy in
  r.1 = Raise (ExternalError 4)
  /\ heap r.2 = heap u_lazy
  /\ trace r.2 =
       trace u_lazy ++
         [call_args_to_cl_buffers 0%nat ∅ ∅;
          call_execute_distributed_partition partition0 ∅ queue0 comm0 alloc0 ∅].
Proof.
  assert (heap u_lazy !! actx compiled_empty = Some o_lazy) as H1
    by (vm_compute; reflexivity).
  assert (attrs o_lazy !! "queue" = Some queue0) as H2
    by (vm_compute; reflexivity).
  assert (attrs o_lazy !! "mpi_communicator" = Some comm0) as H3
    by (vm_compute; reflexivity).
  assert (attrs o_lazy !! "allocator" = Some alloc0) as H4
    by (vm_compute; reflexivity).
  assert (args_to_cl_buffers (Some o_lazy)
            (input_id_to_name_in_program compiled_empty) ∅ (ext u_lazy)
          = (Returns ∅, tt)) as H5 by reflexivity.
  assert (execute_distributed_partition (distributed_partition compiled_empty)
            (part_id_to_prg compiled_empty) queue0 comm0 alloc0 ∅ tt
          = (Raises 4%positive, tt)) as H6 by reflexivity.
  exact (proj2 (call_failures_propagate compiled_empty ∅ u_lazy o_lazy
                  queue0 comm0 alloc0 H1 H2 H3 H4) ∅ tt 4%positive tt H5 H6).
Defined.

(** Cloning the lazy context that was built without an allocator: two
    warnings for the construction, two more for the clone. *)
Lemma clone_repeats_allocator_warning_witness :
  warnings (clone 0%nat w_no_allocator).2 =
    [msg_no_allocator; msg_no_allocator; msg_no_allocator; msg_no_allocator].
Proof.
  set (o := mkObj MPIBasePytatoPyOpenCLArrayContext
              (<["mpi_base_tag" := VInt 5]>
                 (<["mpi_communicator" := comm0]>
                    (<["allocator" := VNone]> (<["queue" := queue0]> ∅))))).
  assert (heap w_no_allocator !! 0%nat = Some o) as H1
    by (vm_compute; reflexivity).
  assert (cls o ∈ mpi_classes) as H2 by (unfold mpi_classes; in_list).
  assert (forall n, n ∈ carried (cls o) -> is_Some (attrs o !! n)) as H3.
  { intros n Hn. unfold carried in Hn. simpl in Hn.
    repeat (apply elem_of_cons in Hn as [-> | Hn]);
      [ by eexists .. | by inversion Hn ]. }
  rewrite (clone_repeats_allocator_warning 0%nat o w_no_allocator H1 H2 H3).
  vm_compute. reflexivity.
Defined.

(** Cloning an object of an MPI class that has no attributes. *)
Lemma clone_missing_attribute_witness :
  clone 0%nat w_bare = (Raise AttributeError, w_bare).
Proof.
  apply (clone_missing_attribute 0%nat (mkObj MPIPyOpenCLArrayContext ∅)
           w_bare "queue").
  - reflexivity.
  - unfold mpi_classes. in_list.
  - unfold carried. simpl. in_list.
  - reflexivity.
Defined.

(** Compile on the lazy context: the context gets the base tag 6, and
    the program stored for part 1 is the first result of the code
    generation for that part. *)
Lemma compiled_function_runs_on_its_context_witness :
  let self := MPIPytatoArrayContextBase_compile 0%nat (VRef 1) in
  let cf := mkCompiled 0%nat partition0 {[ 1%positive := VRef 104 ]} ∅ ∅
              (Leaf VNone) in
  let o' := mkObj MPIBasePytatoPyOpenCLArrayContext
              (<["mpi_base_tag" := VInt 6]> (attrs o_lazy)) in
  let r := _dag_to_compiled_func self dict0 ∅ ∅ (Leaf VNone) w_lazy in
  r.1 = Ok cf
  /\ heap r.2 !! 0%nat = Some o'
  /\ generated_for (Ext:=nat) self (Some o') partition0 (parts partition0)
       1%positive (VRef 104).
Proof.
  intros self cf o' r.
  assert (heap w_lazy !! 0%nat = Some o_lazy) as H1
    by (by rewrite w_lazy_heap).
  assert (attrs o_lazy !! "mpi_communicator" = Some comm0) as H2
    by (vm_compute; reflexivity).
  assert (attrs o_lazy !! "queue" = Some queue0) as H3
    by (vm_compute; reflexivity).
  assert (attrs o_lazy !! "allocator" = Some alloc0) as H4
    by (vm_compute; reflexivity).
  assert (attrs o_lazy !! "mpi_base_tag" = Some (VInt 5)) as H5
    by (vm_compute; reflexivity).
  assert (deduplicate_data_wrappers dict0 (ext w_lazy) = (Returns dict0, 2%nat))
    as H6 by (vm_compute; reflexivity).
  assert (find_distributed_partition dict0 2%nat = (Returns partition0, 3%nat))
    as H7 by (vm_compute; reflexivity).
  assert (number_distributed_tags comm0 partition0 (VInt 5) 3%nat
          = (Returns (partition0, VInt 6), 4%nat)) as H8
    by (vm_compute; reflexivity).
  assert (r.1 = Ok cf) as H9 by (vm_compute; reflexivity).
  assert (part_id_to_prg cf !! 1%positive = Some (VRef 104)) as H10
    by (vm_compute; reflexivity).
  destruct (compiled_function_runs_on_its_context 0%nat (VRef 1) dict0 ∅ ∅
              (Leaf VNone) w_lazy o_lazy comm0 queue0 alloc0 (VInt 5)
              dict0 partition0 partition0 (VInt 6) 2%nat 3%nat 4%nat cf
              H1 H2 H3 H4 H5 H6 H7 H8 H9)
    as (Hheap & _ & _ & _ & Hgen & _).
  split_and!; [ exact H9 | exact Hheap | exact (Hgen _ _ H10) ].
Defined.

(** * The assertion on the base tag, with tags of any kind *)

Section BaseTagAssertion.
Context {Ext : Type} (lib : AnyTag.Library Ext).

Lemma py_eq_any_self (v : AnyTag.PyValue) :
  AnyTag.py_eq_any v v = false <-> v = AnyTag.FloatNaN.
Proof.
  destruct v as [v | ]; simpl.
  - rewrite py_eq_refl. by split.
  - by split.
Qed.

Lemma any_named_results_frame (m : gmap string Value) (names : list string)
    (acc : NamedArrays) (s : AnyTag.State Ext) :
  (AnyTag.named_results m names acc s).1 <> Raise AssertionError.
Proof.
  revert acc. induction names as [ | n names IH ]; intros acc; simpl.
  - done.
  - destruct (m !! n); [ apply IH | done ].
Qed.

(** The loop asserts nothing. *)
Lemma any_compile_parts_frame (self : Caller) (dp : DistributedGraphPartition)
    (ps : list (PartId * Part)) (acc : gmap PartId Value)
    (s : AnyTag.State Ext) :
  (AnyTag.compile_parts lib self dp ps acc s).1 <> Raise AssertionError.
Proof.
  revert acc s. induction ps as [ | [i part] ps IH ]; intros acc s; simpl.
  - done.
  - unfold AnyTag.and_then at 1.
    pose proof (any_named_results_frame (var_name_to_result dp)
                  (output_names part) ∅ s) as Hn.
    destruct (AnyTag.named_results (var_name_to_result dp) (output_names part)
                ∅ s) as [[d | e] s1]; simpl in *.
    2: { intros [= ->]. by apply Hn. }
    unfold AnyTag.and_then at 1. unfold AnyTag.library_call at 1.
    destruct (AnyTag.dag_to_transformed_loopy_prg lib self d s1).1
      as [r | code]; [ apply IH | done ].
Qed.

(** A compilation in which nothing modifies the base tag between the
    read and the assertion raises [AssertionError] exactly when it
    reaches the assertion with a nan as base tag. *)
Lemma assertion_fails_exactly_for_nan (self : Caller) (d : NamedArrays)
    (inames onames : gmap Keys string) (tmpl : ArrayContainer)
    (s : AnyTag.State Ext) :
  keeps_base_tag lib ->
  (AnyTag._dag_to_compiled_func lib self d inames onames tmpl s).1
    = Raise AssertionError
  <-> reaches_assertion_with lib d s AnyTag.FloatNaN.
Proof.
  intros Hkeeps. unfold reaches_assertion_with, AnyTag._dag_to_compiled_func.
  unfold AnyTag.and_then at 1. unfold AnyTag.library_call at 1.
  destruct (AnyTag.deduplicate_data_wrappers lib d s) as [[d1 | code] s1] eqn:H1;
    simpl.
  2: { split; [ done | ]. by intros (? & ? & ? & ? & ? & ? & [= ] & _). }
  unfold AnyTag.and_then at 1. unfold AnyTag.library_call at 1.
  destruct (AnyTag.find_distributed_partition lib d1 s1) as [[p | code] s2]
    eqn:H2; simpl.
  2: { split; [ done | ].
       intros (? & ? & ? & ? & ? & ? & [= <- <-] & H & _).
       rewrite H2 in H. done. }
  unfold AnyTag.and_then at 1. unfold AnyTag.getattr_actx at 1.
  destruct (AnyTag.actx_attrs s2 !! "mpi_base_tag") as [tag | ] eqn:Ht.
  2: { split; [ done | ].
       intros (? & ? & ? & ? & ? & ? & [= <- <-] & H & Htag & _).
       rewrite H2 in H. injection H as <- <-. congruence. }
  unfold AnyTag.and_then at 1. unfold AnyTag.getattr_actx at 1.
  destruct (AnyTag.actx_attrs s2 !! "mpi_communicator") as [comm | ] eqn:Hc.
  2: { split; [ done | ].
       intros (? & ? & ? & ? & ? & ? & [= <- <-] & H & _ & Hcomm & _).
       rewrite H2 in H. injection H as <- <-. congruence. }
  unfold AnyTag.and_then at 1. unfold AnyTag.library_call at 1.
  pose proof (Hkeeps comm p tag s2) as Hsame.
  destruct (AnyTag.number_distributed_tags lib comm p tag s2)
    as [[[p' new] | code] s3] eqn:H3; simpl in *.
  2: { split; [ done | ].
       intros (? & ? & ? & ? & ? & ? & [= <- <-] & H & Htag & Hcomm & Hn).
       rewrite H2 in H. injection H as <- <-.
       rewrite Hc in Hcomm. injection Hcomm as <-.
       rewrite Ht in Htag. injection Htag as ->.
       rewrite H3 in Hn. done. }
  unfold AnyTag.and_then at 1. unfold AnyTag.getattr_actx at 1.
  rewrite Hsame, Ht.
  unfold AnyTag.and_then at 1.
  destruct (AnyTag.py_eq_any tag tag) eqn:Heq; simpl.
  - unfold AnyTag.and_then at 1. simpl.
    unfold AnyTag.and_then at 1.
    match goal with |- context [AnyTag.compile_parts lib self p' (parts p') ∅ ?s4] =>
      pose proof (any_compile_parts_frame self p' (parts p') ∅ s4) as Hloop;
      destruct (AnyTag.compile_parts lib self p' (parts p') ∅ s4)
        as [[prgs | e] s5]
    end; simpl in *.
    + split; [ done | ].
      intros (? & ? & ? & ? & ? & ? & [= <- <-] & H & Htag & _).
      rewrite H2 in H. injection H as <- <-.
      rewrite Ht in Htag. injection Htag as ->. done.
    + split; [ intros [= ->]; by destruct Hloop | ].
      intros (? & ? & ? & ? & ? & ? & [= <- <-] & H & Htag & _).
      rewrite H2 in H. injection H as <- <-.
      rewrite Ht in Htag. injection Htag as ->. done.
  - apply py_eq_any_self in Heq as ->.
    split; [ | done ]. intros _.
    exists d1, s1, p, s2, comm, (p', new).
    split_and!; try done. by rewrite H3.
Qed.


(** Every value of the first embedding equals itself, so on such a base
    tag the assertion holds. *)
Lemma assertion_holds_on_plain_tag (self : Caller) (d : NamedArrays)
    (inames onames : gmap Keys string) (tmpl : ArrayContainer)
    (s : AnyTag.State Ext) (v : Value) :
  keeps_base_tag lib ->
  reaches_assertion_with lib d s (AnyTag.Plain v) ->
  (AnyTag._dag_to_compiled_func lib self d inames onames tmpl s).1
    <> Raise AssertionError.
Proof.
  intros Hkeeps Hreach Hraise.
  apply (assertion_fails_exactly_for_nan self d inames onames tmpl s Hkeeps)
    in Hraise.
  destruct Hreach as (d1 & s1 & p & s2 & comm & n & H1 & H2 & Ht & _).
  destruct Hraise as (d1' & s1' & p' & s2' & comm' & n' & H1' & H2' & Ht' & _).
  rewrite H1 in H1'. injection H1' as <- <-.
  rewrite H2 in H2'. injection H2' as <- <-.
  congruence.
Qed.

End BaseTagAssertion.



(** The assertion is not idle: were the renumbering to write the new tag
    to the array context itself, the compilation would stop there. *)
Lemma meddled_base_tag_fails_assertion :
  ~ keeps_base_tag AnyTag.meddling_library
  /\ (AnyTag._dag_to_compiled_func AnyTag.meddling_library caller0 dict0 ∅ ∅
        (Leaf VNone) (AnyTag.context_with_tag (AnyTag.Plain (VInt 5)))).1
     = Raise AssertionError.
Proof.
  split.
  - intros Hkeeps.
    specialize (Hkeeps (AnyTag.Plain (VRef 13)) AnyTag.one_part
                  (AnyTag.Plain (VInt 5))
                  (AnyTag.context_with_tag (AnyTag.Plain (VInt 5)))).
    vm_compute in Hkeeps. discriminate Hkeeps.
  - vm_compute. reflexivity.
Qed.
